(** * Schema-constrained extraction: the email task parser and the customer
      sentiment analyzer

    A shallow embedding of [2_email_task_parser.py] and
    [customer_sentiment_analyzer.py].  Both scripts declare a pydantic
    schema, build one chat request and hand it to the structured-output
    entry point of a model client, returning the first choice's parsed
    record.

    - Part 1 embeds the schema declarations as validators over decoded JSON.
    - Part 2 embeds the two extractor functions and the entry points of
      the two scripts over an explicit world (collaborator state and an
      effect trace).
    - Part 3 models the collaborator of [llm_config], which is not among the
      sources, from its contract, and gives stub collaborators.
    - Part 4 fixes the vocabulary of the statements and the sample data.
    - Part 5 states and proves the properties C1 to C10.
    - Part 6 proves further properties of the code, X1 to X15: the two
      entry points, edge behaviour of the extractors, and the schemas. *)

From Stdlib Require Import String Ascii List Bool ZArith DecimalString Lia.
From Stdlib Require Import Floats.PrimFloat.
Import ListNotations.

Set Warnings "-inexact-float,-register-all".
Set Implicit Arguments.
Local Open Scope string_scope.
Local Open Scope list_scope.

(* ================================================================== *)
(** * Part 1: decoded JSON and the declared schemas *)
(* ================================================================== *)

(** A decoded JSON document.  Numbers are carried as the binary64 value the
    decoder produces; object members are kept in textual order. *)
Inductive json : Type :=
| JNull
| JBool (b : bool)
| JNumber (f : float)
| JString (s : string)
| JArray (items : list json)
| JObject (members : list (string * json)).

(** Member lookup.  A key written twice denotes its last value, as in a
    Python [dict] built from the document. *)
Fixpoint get (key : string) (members : list (string * json)) : option json :=
  match members with
  | [] => None
  | (k, v) :: rest =>
      match get key rest with
      | Some later => Some later
      | None => if String.eqb key k then Some v else None
      end
  end.

(** ** Validation outcomes *)

Inductive Result (E A : Type) : Type :=
| Ok (a : A)
| Err (e : E).
Arguments Ok {E A} a.
Arguments Err {E A} e.

(** The kinds of complaint the declared constraints can give rise to. *)
Inductive ErrorKind : Type :=
| missing
| string_type
| float_type
| bool_type
| list_type
| model_type
| literal_error (expected : list string)
| greater_than_equal (bound : float)
| less_than_equal (bound : float).

Inductive LocItem : Type :=
| Key (name : string)
| Index (i : nat).

(** One line of a validation report: where, and what. *)
Definition Issue : Type := (list LocItem * ErrorKind)%type.

(** A validator yields the value or the collected report. *)
Definition V (A : Type) : Type := Result (list Issue) A.

Definition under (l : LocItem) {A} (r : V A) : V A :=
  match r with
  | Ok a => Ok a
  | Err issues => Err (map (fun i : Issue => (l :: fst i, snd i)) issues)
  end.

(** Fields are validated independently and every complaint is reported:
    the record exists only when all of them passed. *)
Definition ap {A B} (f : V (A -> B)) (x : V A) : V B :=
  match f, x with
  | Ok g, Ok a => Ok (g a)
  | Ok _, Err e => Err e
  | Err e, Ok _ => Err e
  | Err e1, Err e2 => Err (e1 ++ e2)
  end.

Notation "f <*> x" := (ap f x) (at level 52, left associativity).

(** ** Reading primitive field types

    How a decoded value is read at a [str], [float] or [bool] annotation is
    the validation library's business (its strictness mode decides whether,
    say, a numeric string is accepted at a [float] field); the sources do
    not configure it, so it is an interface here. *)
Class Coercion : Type := {
  as_str : json -> option string;
  as_float : json -> option float;
  as_bool : json -> option bool
}.

(** The strict reading: each annotation accepts its own JSON kind only. *)
Definition strict : Coercion := {|
  as_str j := match j with JString s => Some s | _ => None end;
  as_float j := match j with JNumber f => Some f | _ => None end;
  as_bool j := match j with JBool b => Some b | _ => None end
|}.

Section Validators.
Context {coercion : Coercion}.

(** [str] *)
Definition v_str (j : json) : V string :=
  match as_str j with
  | Some s => Ok s
  | None => Err [([], string_type)]
  end.

(** [bool] *)
Definition v_bool (j : json) : V bool :=
  match as_bool j with
  | Some b => Ok b
  | None => Err [([], bool_type)]
  end.

(** [float] with [ge] and [le] bounds.  A NaN compares with nothing and
    fails the first bound. *)
Definition v_float (ge le : float) (j : json) : V float :=
  match as_float j with
  | None => Err [([], float_type)]
  | Some f =>
      if negb (PrimFloat.leb ge f) then Err [([], greater_than_equal ge)]
      else if negb (PrimFloat.leb f le) then Err [([], less_than_equal le)]
      else Ok f
  end.

(** [Literal[...]]: the value must be one of the listed strings; nothing
    is coerced. *)
Definition v_literal (choices : list string) (j : json) : V string :=
  match j with
  | JString s =>
      if existsb (String.eqb s) choices then Ok s
      else Err [([], literal_error choices)]
  | _ => Err [([], literal_error choices)]
  end.

(** [Optional[T]] *)
Definition v_optional {A} (v : json -> V A) (j : json) : V (option A) :=
  match j with
  | JNull => Ok None
  | _ => match v j with Ok a => Ok (Some a) | Err e => Err e end
  end.

(** [List[T]]: every item is validated, complaints located by index. *)
Fixpoint v_items {A} (v : json -> V A) (i : nat) (items : list json)
  : V (list A) :=
  match items with
  | [] => Ok []
  | x :: rest => Ok cons <*> under (Index i) (v x) <*> v_items v (S i) rest
  end.

Definition v_list {A} (v : json -> V A) (j : json) : V (list A) :=
  match j with
  | JArray items => v_items v 0 items
  | _ => Err [([], list_type)]
  end.

(** A nested model *)
Definition v_model {A} (validate : list (string * json) -> V A) (j : json)
  : V A :=
  match j with
  | JObject members => validate members
  | _ => Err [([], model_type)]
  end.

(** A field declared without a default is required. *)
Definition required {A} (name : string) (v : json -> V A)
           (members : list (string * json)) : V A :=
  match get name members with
  | None => Err [([Key name], missing)]
  | Some j => under (Key name) (v j)
  end.

(** A field declared with a default takes it when the key is absent. *)
Definition defaulted {A} (name : string) (default : A) (v : json -> V A)
           (members : list (string * json)) : V A :=
  match get name members with
  | None => Ok default
  | Some j => under (Key name) (v j)
  end.

End Validators.

(** ** The email schema *)

Record EmailTask : Type := {
  sender : string;
  date : string;
  action_items : list string;
  priority : string;
  deadline : option string;
  context : string
}.

(** [Literal["high", "medium", "low"]] *)
Definition priority_levels : list string := ["high"; "medium"; "low"].

(** ** The sentiment schema *)

Record SentimentIndicator : Type := {
  phrase : string;
  sentiment_impact : string;
  category : string
}.

Record CustomerSentimentAnalysis : Type := {
  overall_sentiment : string;
  sentiment_score : float;
  key_sentiment_indicators : list SentimentIndicator;
  positive_aspects : list string;
  negative_aspects : list string;
  improvement_suggestions : list string;
  emotion_detected : string;
  churn_risk : string;
  requires_followup : bool;
  followup_priority : string;
  recommended_actions : list string;
  response_template_type : string;
  executive_summary_spanish : string
}.

Definition sentiment_levels : list string :=
  ["very_positive"; "positive"; "neutral"; "negative"; "very_negative"].
Definition categories : list string :=
  ["product"; "service"; "price"; "support"; "delivery"; "overall"].
Definition emotions : list string :=
  ["delighted"; "satisfied"; "neutral"; "frustrated"; "angry"].
Definition churn_levels : list string := ["low"; "medium"; "high"].
Definition followup_levels : list string := ["urgent"; "high"; "medium"; "low"].
Definition template_types : list string :=
  ["apology"; "thank_you"; "clarification"; "resolution"].

Section Schemas.
Context {coercion : Coercion}.

(** Field by field, as declared in [class EmailTask]: [deadline] alone
    carries a default ([None]). *)
Definition validate_EmailTask (o : list (string * json)) : V EmailTask :=
  Ok Build_EmailTask
    <*> required "sender" v_str o
    <*> required "date" v_str o
    <*> required "action_items" (v_list v_str) o
    <*> required "priority" (v_literal priority_levels) o
    <*> defaulted "deadline" None (v_optional v_str) o
    <*> required "context" v_str o.

Definition validate_SentimentIndicator (o : list (string * json))
  : V SentimentIndicator :=
  Ok Build_SentimentIndicator
    <*> required "phrase" v_str o
    <*> required "sentiment_impact" (v_literal sentiment_levels) o
    <*> required "category" (v_literal categories) o.

Definition validate_CustomerSentimentAnalysis (o : list (string * json))
  : V CustomerSentimentAnalysis :=
  Ok Build_CustomerSentimentAnalysis
    <*> required "overall_sentiment" (v_literal sentiment_levels) o
    <*> required "sentiment_score" (v_float (-1.0) 1.0) o
    <*> required "key_sentiment_indicators"
          (v_list (v_model validate_SentimentIndicator)) o
    <*> required "positive_aspects" (v_list v_str) o
    <*> required "negative_aspects" (v_list v_str) o
    <*> required "improvement_suggestions" (v_list v_str) o
    <*> required "emotion_detected" (v_literal emotions) o
    <*> required "churn_risk" (v_literal churn_levels) o
    <*> required "requires_followup" v_bool o
    <*> required "followup_priority" (v_literal followup_levels) o
    <*> required "recommended_actions" (v_list v_str) o
    <*> required "response_template_type" (v_literal template_types) o
    <*> required "executive_summary_spanish" v_str o.

End Schemas.

(** The two classes that are passed as [response_format]. *)
Inductive Model : Type :=
| EmailTaskModel
| CustomerSentimentAnalysisModel.

(** The Python class a schema denotes. *)
Definition instance (m : Model) : Type :=
  match m with
  | EmailTaskModel => EmailTask
  | CustomerSentimentAnalysisModel => CustomerSentimentAnalysis
  end.

(** Validation of a whole document against a class: the document must be an
    object. *)
Definition model_validate {coercion : Coercion} (m : Model)
  : json -> V (instance m) :=
  match m with
  | EmailTaskModel => v_model validate_EmailTask
  | CustomerSentimentAnalysisModel => v_model validate_CustomerSentimentAnalysis
  end.

(* ================================================================== *)
(** * Part 2: the extractors *)
(* ================================================================== *)

(** ** Requests, completions and failures *)

Record ChatMessage : Type := {
  role : string;
  content : string
}.

(** The keyword arguments of [client.chat.completions.parse] other than
    [response_format]. *)
Record ChatRequest : Type := {
  model : string;
  messages : list ChatMessage;
  temperature : float;
  max_completion_tokens : option Z
}.

Record ParsedMessage (T : Type) : Type := {
  parsed : option T
}.

Record ParsedChoice (T : Type) : Type := {
  message : ParsedMessage T
}.

Record ParsedChatCompletion (T : Type) : Type := {
  choices : list (ParsedChoice T)
}.

(** What an invocation can end in instead of a value.  The first three are
    the failure taxonomy of an extraction (no function of the sources raises
    [EmptyInput] itself); the last two are Python's, for [choices[0]] on an
    empty list and for an attribute read on [None]. *)
Inductive Failure : Type :=
| CollaboratorUnavailable (detail : string)
| SchemaViolation (report : list Issue)
| EmptyInput
| IndexError
| AttributeError.

(** ** The collaborator, the world and the effect trace *)

(** The client object.  Its one capability takes the target class and the
    request, and answers with a parsed completion or raises; [S] is whatever
    state stands behind it (a remote service, a stub's script). *)
Record Client (S : Type) : Type := {
  client_parse :
    forall response_format : Model,
      ChatRequest -> S ->
      Result Failure (ParsedChatCompletion (instance response_format)) * S
}.

(** The module [llm_config], imported by both scripts and not among the
    sources: it is taken as a parameter.  [get_llm_client()] hands over the
    client and has no effect of its own on the world. *)
Record llm_config (S : Type) : Type := {
  get_llm_client : Client S;
  MODEL_NAME : string
}.

(** The observable effects a script of this repository can have. *)
Inductive Event : Type :=
| Submitted (response_format : Model) (request : ChatRequest)
| Printed (line : string).

Record World (S : Type) : Type := {
  collaborator : S;
  trace : list Event
}.

(** Computations: read and update the world, return a value or raise. *)
Definition M (S A : Type) : Type := World S -> Result Failure A * World S.

Definition ret {S A} (a : A) : M S A := fun w => (Ok a, w).

Definition raise {S A} (e : Failure) : M S A := fun w => (Err e, w).

Definition bind {S A B} (m : M S A) (k : A -> M S B) : M S B :=
  fun w =>
    match m w with
    | (Ok a, w') => k a w'
    | (Err e, w') => (Err e, w')
    end.

Notation "x <- m ;; k" := (bind m (fun x => k))
  (at level 100, m at next level, right associativity).

(** [client.chat.completions.parse(...)]: the call reaches the collaborator
    and is recorded in the trace, whatever its outcome. *)
Definition chat_completions_parse {S} (client : Client S)
           (response_format : Model) (request : ChatRequest)
  : M S (ParsedChatCompletion (instance response_format)) :=
  fun w =>
    let (outcome, s) := client_parse client response_format request
                                     (collaborator w) in
    (outcome,
     {| collaborator := s;
        trace := trace w ++ [Submitted response_format request] |}).

(** [xs[0]] *)
Definition first {S A} (xs : list A) : M S A :=
  match xs with
  | [] => raise IndexError
  | x :: _ => ret x
  end.

(** [print(line)] *)
Definition print {S} (line : string) : M S unit :=
  fun w =>
    (Ok tt,
     {| collaborator := collaborator w; trace := trace w ++ [Printed line] |}).

(** [result.field], where [result] may be [None] *)
Definition attribute {S T A} (result : option T) (field : T -> A) : M S A :=
  match result with
  | Some r => ret (field r)
  | None => raise AttributeError
  end.

(** ** The fixed texts *)

Definition LF : string := String "010"%char EmptyString.
Definition DQ : string := String "034"%char EmptyString.

Definition unlines (lines : list string) : string := String.concat LF lines.

Definition email_system_guidance : string :=
  unlines
    [ "You are a task extraction specialist. "
    ; "                Extract actionable tasks from emails by:"
    ; "                1. Identifying the sender and date"
    ; "                2. Finding all action items (look for verbs like: review, send, prepare, schedule, complete)"
    ; "                3. Determining priority based on words like: urgent, ASAP, critical, when you can"
    ; "                4. Extracting specific deadlines if mentioned"
    ; "                5. Summarizing the context"
    ; "                "
    ; "                SOR GUIDELINES:"
    ; ("                - Make action items specific: " ++ DQ ++ "Review budget proposal" ++ DQ ++ " not " ++ DQ ++ "Review document" ++ DQ)%string
    ; "                - Priority HIGH: urgent, ASAP, critical, deadline today/tomorrow"
    ; "                - Priority MEDIUM: please do, needed by [specific date]"
    ; "                - Priority LOW: when you can, when convenient, no rush"
    ; "                "
    ; "                Be specific and actionable in task descriptions." ].

Definition sentiment_system_guidance : string :=
  unlines
    [ "You are a customer experience analyst."
    ; "                Analyze customer feedback by:"
    ; "                1. Determining overall sentiment and emotion"
    ; "                2. Identifying specific positive and negative indicators"
    ; "                3. Assessing churn risk based on language intensity"
    ; "                4. Extracting improvement suggestions"
    ; "                5. Recommending concrete actions"
    ; "                "
    ; "                BUSINESS-ORIENTED SENTIMENT ANALYSIS:"
    ; "                "
    ; "                CHURN RISK ASSESSMENT:"
    ; ("                - HIGH: Explicit threats to leave, comparison shopping mentions, " ++ DQ ++ "final straw" ++ DQ ++ " language")%string
    ; "                - MEDIUM: Frustration with multiple issues, questioning value, delayed responses"
    ; "                - LOW: Single issue complaints, constructive feedback, long-term customer language"
    ; "                "
    ; "                PRIORITY CLASSIFICATION:"
    ; "                - URGENT: Angry customers, service failures, public complaint threats"
    ; "                - HIGH: Dissatisfied customers with specific issues, competitive comparisons"
    ; "                - MEDIUM: Mixed feedback, process improvement suggestions"
    ; "                - LOW: Minor issues, general feedback, satisfied customers with suggestions"
    ; "                "
    ; "                RESPONSE TEMPLATE SELECTION:"
    ; "                - APOLOGY: Service failures, mistakes, unmet expectations"
    ; "                - THANK_YOU: Positive feedback, compliments, constructive suggestions"
    ; "                - CLARIFICATION: Misunderstandings, unclear processes, feature questions"
    ; "                - RESOLUTION: Specific problems requiring concrete fixes"
    ; "                "
    ; "                Look for subtle cues:"
    ; "                - Extreme language indicates high emotion"
    ; "                - Multiple issues suggest high churn risk"
    ; "                - Constructive criticism shows engaged customers"
    ; "                - Sarcasm often masks frustration"
    ; ("                - Loyalty indicators (" ++ DQ ++ "long-time customer" ++ DQ ++ ", " ++ DQ ++ "usually satisfied" ++ DQ ++ ")")%string ].

Definition email_user_prefix : string :=
  ("Extract tasks from this email:" ++ LF)%string.

Definition sentiment_user_prefix : string :=
  ("Analyze this customer feedback:" ++ LF)%string.

(** The sample text embedded in the email script. *)
Definition sample_email : string :=
  unlines
    [ EmptyString
    ; "    From: sarah.johnson@company.com"
    ; "    Date: Monday, March 15, 2024"
    ; "    Subject: Q2 Planning - Action Required"
    ; "    "
    ; "    Hi Team,"
    ; "    "
    ; "    Hope you're all doing well. We need to wrap up our Q2 planning soon. "
    ; "    "
    ; "    Could you please:"
    ; "    - Review the attached budget proposal and provide feedback by EOD Wednesday"
    ; "    - Schedule a team meeting for next week to discuss the roadmap"
    ; "    - Send me your individual OKRs for Q2 (this is URGENT - needed by tomorrow!)"
    ; "    "
    ; "    Also, when you get a chance, please update the project dashboard with current status."
    ; "    "
    ; "    Thanks,"
    ; "    Sarah"
    ; "    " ].

(** ** The two functions *)

Section Extractors.
Variable S : Type.
Variable config : llm_config S.

Definition parse_email_to_tasks (email_content : string)
  : M S (option EmailTask) :=
  let client := get_llm_client config in
  completion <-
    chat_completions_parse client EmailTaskModel
      {| model := MODEL_NAME config;
         messages :=
           [ {| role := "system"; content := email_system_guidance |};
             {| role := "user";
                content := (email_user_prefix ++ email_content)%string |} ];
         temperature := 0.3;
         max_completion_tokens := Some 500%Z |} ;;
  choice <- first (choices completion) ;;
  ret (parsed (message choice)).

Definition analyze_customer_sentiment (feedback : string)
  : M S (option CustomerSentimentAnalysis) :=
  let client := get_llm_client config in
  completion <-
    chat_completions_parse client CustomerSentimentAnalysisModel
      {| model := MODEL_NAME config;
         messages :=
           [ {| role := "system"; content := sentiment_system_guidance |};
             {| role := "user";
                content := (sentiment_user_prefix ++ feedback)%string |} ];
         temperature := 0.3;
         max_completion_tokens := None |} ;;
  choice <- first (choices completion) ;;
  ret (parsed (message choice)).

(** ** The entry point of the email script *)

(** [str(x)] of an optional text *)
Definition str_optional (x : option string) : string :=
  match x with
  | Some s => s
  | None => "None"
  end.

(** [str(i)] *)
Definition str_nat (i : nat) : string := NilZero.string_of_uint (Nat.to_uint i).

(** [for i, task in enumerate(tasks, i): print(f"  {i}. {task}")] *)
Fixpoint print_numbered (i : nat) (tasks : list string) : M S unit :=
  match tasks with
  | [] => ret tt
  | task :: rest =>
      _ <- print ("  " ++ str_nat i ++ ". " ++ task)%string ;;
      print_numbered (i + 1) rest
  end.

(** The [__main__] block of [2_email_task_parser.py]. *)
Definition main : M S unit :=
  result <- parse_email_to_tasks sample_email ;;
  sender_ <- attribute result sender ;;
  _ <- print ("Sender: " ++ sender_)%string ;;
  date_ <- attribute result date ;;
  _ <- print ("Date: " ++ date_)%string ;;
  priority_ <- attribute result priority ;;
  _ <- print ("Priority: " ++ priority_)%string ;;
  deadline_ <- attribute result deadline ;;
  _ <- print ("Deadline: " ++ str_optional deadline_)%string ;;
  _ <- print (LF ++ "Action Items:")%string ;;
  action_items_ <- attribute result action_items ;;
  _ <- print_numbered 1 action_items_ ;;
  context_ <- attribute result context ;;
  print (LF ++ "Context: " ++ context_)%string.

End Extractors.

(** ** The entry point of the sentiment script

    Texts are carried as the bytes they are written out as (UTF-8), so the
    bullet marks of the report are the byte sequences of their characters. *)

(** The sample text embedded in the sentiment script. *)
Definition customer_feedback : string :=
  unlines
    [ EmptyString
    ; "    I've been a customer for 3 years, but lately I'm really disappointed. "
    ; "    The product quality is still good, I'll give you that. But your customer service "
    ; "    has become absolutely terrible! I waited 45 minutes on hold yesterday just to "
    ; "    ask a simple question about my billing. "
    ; "    "
    ; "    When I finally got through, the agent seemed like they didn't care at all and "
    ; "    couldn't even answer my question properly. They just kept reading from a script."
    ; "    "
    ; "    The price increases don't help either - 20% more than last year for the same service? "
    ; "    That's ridiculous. I'm seriously considering switching to your competitor."
    ; "    "
    ; "    Please do something about your support team. Train them better or hire people who "
    ; "    actually care about customers. Otherwise you'll lose a loyal customer."
    ; "    " ].

(** [for x in xs: body(x)] *)
Fixpoint for_each {S A} (body : A -> M S unit) (xs : list A) : M S unit :=
  match xs with
  | [] => ret tt
  | x :: rest => _ <- body x ;; for_each body rest
  end.

(** ['Yes' if b else 'No'] *)
Definition yes_no (b : bool) : string := if b then "Yes" else "No".

Section SentimentEntryPoint.
Variable S : Type.
Variable config : llm_config S.

(** [f"{x:.2f}"]: the fixed-point rendering of a float is Python's own, not
    part of the sources; it is a parameter. *)
Variable format_2f : float -> string.

(** The [__main__] block of [customer_sentiment_analyzer.py]. *)
Definition sentiment_main : M S unit :=
  result <- analyze_customer_sentiment config customer_feedback ;;
  overall_sentiment_ <- attribute result overall_sentiment ;;
  sentiment_score_ <- attribute result sentiment_score ;;
  _ <- print ("Overall Sentiment: " ++ overall_sentiment_ ++ " (Score: "
              ++ format_2f sentiment_score_ ++ ")")%string ;;
  emotion_detected_ <- attribute result emotion_detected ;;
  _ <- print ("Emotion Detected: " ++ emotion_detected_)%string ;;
  churn_risk_ <- attribute result churn_risk ;;
  _ <- print ("Churn Risk: " ++ churn_risk_)%string ;;
  requires_followup_ <- attribute result requires_followup ;;
  followup_priority_ <- attribute result followup_priority ;;
  _ <- print ("Requires Follow-up: " ++ yes_no requires_followup_
              ++ " (Priority: " ++ followup_priority_ ++ ")")%string ;;
  _ <- print (LF ++ "Positive Aspects:")%string ;;
  positive_aspects_ <- attribute result positive_aspects ;;
  _ <- for_each (fun aspect => print ("  ✓ " ++ aspect)%string)
                positive_aspects_ ;;
  _ <- print (LF ++ "Negative Aspects:")%string ;;
  negative_aspects_ <- attribute result negative_aspects ;;
  _ <- for_each (fun aspect => print ("  ✗ " ++ aspect)%string)
                negative_aspects_ ;;
  _ <- print (LF ++ "Key Indicators:")%string ;;
  key_sentiment_indicators_ <- attribute result key_sentiment_indicators ;;
  _ <- for_each
         (fun indicator =>
            print ("  • " ++ DQ ++ phrase indicator ++ DQ ++ " → "
                   ++ sentiment_impact indicator
                   ++ " (" ++ category indicator ++ ")")%string)
         (firstn 3 key_sentiment_indicators_) ;;
  _ <- print (LF ++ "Recommended Actions:")%string ;;
  recommended_actions_ <- attribute result recommended_actions ;;
  _ <- print_numbered 1 recommended_actions_ ;;
  response_template_type_ <- attribute result response_template_type ;;
  _ <- print (LF ++ "Response Type: " ++ response_template_type_)%string ;;
  _ <- print (LF ++ "📝 Executive Summary (Spanish):")%string ;;
  executive_summary_spanish_ <- attribute result executive_summary_spanish ;;
  print ("  " ++ executive_summary_spanish_)%string.

End SentimentEntryPoint.

(* ================================================================== *)
(** * Part 3: the collaborator of [llm_config], and stubs *)
(* ================================================================== *)

(** Modelled from the spec: the wire side of the collaborator, which is not
    among the sources.  One choice of a reply carries the decoded content
    the model produced, or nothing. *)
Record RawChoice : Type := {
  raw_content : option json
}.

(** Modelled from the spec: the collaborator "returns either a
    schema-conformant record or an error"; before validation, that is a
    transport, authentication or quota failure, or a reply with choices. *)
Inductive Reply : Type :=
| Unavailable (detail : string)
| Replied (raw_choices : list RawChoice).

(** Modelled from the spec: the remote endpoint, "the sole wire-level
    boundary".  Nothing is assumed of it: it is any function of the target
    class, the request and its own state. *)
Definition Endpoint (S : Type) : Type :=
  Model -> ChatRequest -> S -> Reply * S.

Section SchemaClient.
Context {coercion : Coercion}.

(** Modelled from the spec: a returned value "that cannot be coerced to the
    declared schema (wrong type, value outside enumerated set or numeric
    bound, missing required field)" is a SchemaViolation; the declared
    schema is the class passed as [response_format]. *)
Definition parse_choice (response_format : Model) (c : RawChoice)
  : Result Failure (ParsedChoice (instance response_format)) :=
  match raw_content c with
  | None => Ok {| message := {| parsed := None |} |}
  | Some j =>
      match model_validate response_format j with
      | Ok r => Ok {| message := {| parsed := Some r |} |}
      | Err report => Err (SchemaViolation report)
      end
  end.

(** Modelled from the spec: every choice of a reply is parsed, in order; the
    first violation fails the call. *)
Fixpoint parse_choices (response_format : Model) (cs : list RawChoice)
  : Result Failure (list (ParsedChoice (instance response_format))) :=
  match cs with
  | [] => Ok []
  | c :: rest =>
      match parse_choice response_format c with
      | Err e => Err e
      | Ok pc =>
          match parse_choices response_format rest with
          | Err e => Err e
          | Ok pcs => Ok (pc :: pcs)
          end
      end
  end.

(** Modelled from the spec: [get_llm_client] of [llm_config] is not among
    the sources.  Its client "accepts (model identifier, ordered sequence
    of role-tagged messages, target schema, sampling temperature, optional
    max-output-size) and returns either a schema-conformant record or an
    error": a transport, authentication or quota failure is
    CollaboratorUnavailable, and a reply that does not validate against the
    target schema is SchemaViolation. *)
Definition schema_client {S} (endpoint : Endpoint S) : Client S := {|
  client_parse response_format request s :=
    let (reply, s') := endpoint response_format request s in
    (match reply with
     | Unavailable detail => Err (CollaboratorUnavailable detail)
     | Replied cs =>
         match parse_choices response_format cs with
         | Ok pcs => Ok {| choices := pcs |}
         | Err e => Err e
         end
     end, s')
|}.

(** Modelled from the spec: the configuration whose client is the
    schema-validating one over a given endpoint. *)
Definition schema_config {S} (endpoint : Endpoint S) (model_name : string)
  : llm_config S :=
  {| get_llm_client := schema_client endpoint; MODEL_NAME := model_name |}.

End SchemaClient.

(** ** Stub collaborators *)

(** A stub endpoint that answers every request with one choice holding the
    given document. *)
Definition replying (document : json) : Endpoint unit :=
  fun _ _ s => (Replied [ {| raw_content := Some document |} ], s).

(** A stub client that answers from a table and keeps no state. *)
Definition stub_client
           (answer : forall m : Model,
               ChatRequest -> Result Failure (ParsedChatCompletion (instance m)))
  : Client unit :=
  {| client_parse m request s := (answer m request, s) |}.

Definition stub_config
           (answer : forall m : Model,
               ChatRequest -> Result Failure (ParsedChatCompletion (instance m)))
  : llm_config unit :=
  {| get_llm_client := stub_client answer; MODEL_NAME := "stub-model" |}.

(** A completion with one choice carrying [r]. *)
Definition single {T} (r : T) : ParsedChatCompletion T :=
  {| choices := [ {| message := {| parsed := Some r |} |} ] |}.

(** A table with one fixed answer per class. *)
Definition fixed_answer (task : EmailTask)
           (analysis : CustomerSentimentAnalysis) (m : Model) (_ : ChatRequest)
  : Result Failure (ParsedChatCompletion (instance m)) :=
  match m with
  | EmailTaskModel => Ok (single task)
  | CustomerSentimentAnalysisModel => Ok (single analysis)
  end.

(** A table whose every answer is a failure. *)
Definition down (m : Model) (_ : ChatRequest)
  : Result Failure (ParsedChatCompletion (instance m)) :=
  Err (CollaboratorUnavailable "quota exceeded").

(** A table whose every answer is one choice with nothing parsed. *)
Definition declined (m : Model) (_ : ChatRequest)
  : Result Failure (ParsedChatCompletion (instance m)) :=
  Ok {| choices := [ {| message := {| parsed := None |} |} ] |}.

(** A table whose every answer is a completion without choices. *)
Definition no_choices (m : Model) (_ : ChatRequest)
  : Result Failure (ParsedChatCompletion (instance m)) :=
  Ok {| choices := [] |}.

(** The world before anything happened. *)
Definition fresh : World unit := {| collaborator := tt; trace := [] |}.

(* ================================================================== *)
(** * Part 4: the vocabulary of the statements *)
(* ================================================================== *)

(** ** One invocation *)

(** The requests the two functions build, named for the statements below. *)
Definition email_request (model_name email_content : string) : ChatRequest :=
  {| model := model_name;
     messages :=
       [ {| role := "system"; content := email_system_guidance |};
         {| role := "user";
            content := (email_user_prefix ++ email_content)%string |} ];
     temperature := 0.3;
     max_completion_tokens := Some 500%Z |}.

Definition sentiment_request (model_name feedback : string) : ChatRequest :=
  {| model := model_name;
     messages :=
       [ {| role := "system"; content := sentiment_system_guidance |};
         {| role := "user";
            content := (sentiment_user_prefix ++ feedback)%string |} ];
     temperature := 0.3;
     max_completion_tokens := None |}.

(** [completion.choices[0].message.parsed], as a plain function of the
    collaborator's outcome. *)
Definition first_parsed {T} (outcome : Result Failure (ParsedChatCompletion T))
  : Result Failure (option T) :=
  match outcome with
  | Err e => Err e
  | Ok completion =>
      match choices completion with
      | [] => Err IndexError
      | c :: _ => Ok (parsed (message c))
      end
  end.

(** The one call an invocation of the email extractor makes: the client's
    answer and the state it leaves. *)
Definition email_call {S} (config : llm_config S) (email_content : string)
           (w : World S) :=
  client_parse (get_llm_client config) EmailTaskModel
               (email_request (MODEL_NAME config) email_content)
               (collaborator w).

Definition sentiment_call {S} (config : llm_config S) (feedback : string)
           (w : World S) :=
  client_parse (get_llm_client config) CustomerSentimentAnalysisModel
               (sentiment_request (MODEL_NAME config) feedback)
               (collaborator w).

(** A collaborator is deterministic when its answer depends on the request
    alone, not on the state it is in. *)
Definition deterministic {S} (client : Client S) : Prop :=
  forall (m : Model) (request : ChatRequest) (s1 s2 : S),
    fst (client_parse client m request s1) =
    fst (client_parse client m request s2).

(** ** Blank input *)

(** Python's notion of ASCII whitespace, the characters [str.strip] removes. *)
Definition is_space (c : ascii) : bool :=
  let n := nat_of_ascii c in
  ((9 <=? n) && (n <=? 13) || (28 <=? n) && (n <=? 32))%nat.

(** Empty, or whitespace only. *)
Fixpoint is_blank (s : string) : bool :=
  match s with
  | EmptyString => true
  | String c rest => is_space c && is_blank rest
  end.

(** ** Validation reports *)

(** A report that contains a given complaint. *)
Definition fails_with {A} (i : Issue) (r : V A) : Prop :=
  exists report, r = Err report /\ In i report.

Definition is_err {E A} (r : Result E A) : Prop := exists e, r = Err e.

(** The fields of [EmailTask] declared without a default. *)
Definition EmailTask_required : list string :=
  ["sender"; "date"; "action_items"; "priority"; "context"].

(** ** Closed sets *)

(** [v] is not one of the listed strings (it may not be a string at all). *)
Definition other_value (choices : list string) (v : json) : Prop :=
  forall s, v = JString s -> ~ In s choices.

(** The document has, at [name], a value outside the set. *)
Definition outside (choices : list string) (name : string)
           (o : list (string * json)) : Prop :=
  exists v, get name o = Some v /\ other_value choices v.

(** A sentiment response with some enumerated field outside its set, at top
    level or in one of the indicators. *)
Definition analysis_breach (o : list (string * json)) : Prop :=
  outside sentiment_levels "overall_sentiment" o
  \/ outside emotions "emotion_detected" o
  \/ outside churn_levels "churn_risk" o
  \/ outside followup_levels "followup_priority" o
  \/ outside template_types "response_template_type" o
  \/ exists items k io,
      get "key_sentiment_indicators" o = Some (JArray items)
      /\ nth_error items k = Some (JObject io)
      /\ (outside sentiment_levels "sentiment_impact" io
          \/ outside categories "category" io).

(** Every enumerated field of an indicator lies in its set. *)
Definition indicator_in_sets (i : SentimentIndicator) : Prop :=
  In (sentiment_impact i) sentiment_levels /\ In (category i) categories.

(** Every enumerated field of an analysis lies in its set. *)
Definition analysis_in_sets (a : CustomerSentimentAnalysis) : Prop :=
  In (overall_sentiment a) sentiment_levels
  /\ In (emotion_detected a) emotions
  /\ In (churn_risk a) churn_levels
  /\ In (followup_priority a) followup_levels
  /\ In (response_template_type a) template_types
  /\ Forall indicator_in_sets (key_sentiment_indicators a).

(** The record a response denotes once its recommended actions are emptied. *)
Definition without_actions (a : CustomerSentimentAnalysis)
  : CustomerSentimentAnalysis :=
  {| overall_sentiment := overall_sentiment a;
     sentiment_score := sentiment_score a;
     key_sentiment_indicators := key_sentiment_indicators a;
     positive_aspects := positive_aspects a;
     negative_aspects := negative_aspects a;
     improvement_suggestions := improvement_suggestions a;
     emotion_detected := emotion_detected a;
     churn_risk := churn_risk a;
     requires_followup := requires_followup a;
     followup_priority := followup_priority a;
     recommended_actions := [];
     response_template_type := response_template_type a;
     executive_summary_spanish := executive_summary_spanish a |}.

(** ** Sample data *)

Definition sample_task : EmailTask :=
  {| sender := "sarah.johnson@company.com";
     date := "Monday, March 15, 2024";
     action_items := ["Send individual OKRs for Q2"; "Review the budget proposal"];
     priority := "high";
     deadline := Some "tomorrow";
     context := "Q2 planning" |}.

(** A response that validates to [sample_task] when its priority is "high". *)
Definition task_document (p : json) : list (string * json) :=
  [ ("sender", JString "sarah.johnson@company.com");
    ("date", JString "Monday, March 15, 2024");
    ("action_items", JArray [ JString "Send individual OKRs for Q2";
                              JString "Review the budget proposal" ]);
    ("priority", p);
    ("deadline", JString "tomorrow");
    ("context", JString "Q2 planning") ].

(** A record whose priority is outside the declared literals. *)
Definition odd_task : EmailTask :=
  {| sender := "someone";
     date := "today";
     action_items := [];
     priority := "super_urgent";
     deadline := None;
     context := "nothing" |}.

(** A document with the five required fields and no deadline. *)
Definition no_deadline_document : list (string * json) :=
  [ ("sender", JString "sarah.johnson@company.com");
    ("date", JString "Monday, March 15, 2024");
    ("action_items", JArray [JString "Update the project dashboard"]);
    ("priority", JString "low");
    ("context", JString "Q2 planning") ].

Definition sample_analysis : CustomerSentimentAnalysis :=
  {| overall_sentiment := "negative";
     sentiment_score := (-0.5)%float;
     key_sentiment_indicators :=
       [ {| phrase := "absolutely terrible";
            sentiment_impact := "very_negative";
            category := "service" |} ];
     positive_aspects := ["product quality"];
     negative_aspects := ["customer service"];
     improvement_suggestions := ["train the support team"];
     emotion_detected := "frustrated";
     churn_risk := "high";
     requires_followup := true;
     followup_priority := "urgent";
     recommended_actions := ["call the customer"];
     response_template_type := "apology";
     executive_summary_spanish := "Cliente insatisfecho." |}.

(** A response that validates to [sample_analysis] when its score is -0.5
    and the category of its one indicator is "service". *)
Definition analysis_document (score : float) (cat : string)
  : list (string * json) :=
  [ ("overall_sentiment", JString "negative");
    ("sentiment_score", JNumber score);
    ("key_sentiment_indicators",
      JArray [ JObject [ ("phrase", JString "absolutely terrible");
                         ("sentiment_impact", JString "very_negative");
                         ("category", JString cat) ] ]);
    ("positive_aspects", JArray [JString "product quality"]);
    ("negative_aspects", JArray [JString "customer service"]);
    ("improvement_suggestions", JArray [JString "train the support team"]);
    ("emotion_detected", JString "frustrated");
    ("churn_risk", JString "high");
    ("requires_followup", JBool true);
    ("followup_priority", JString "urgent");
    ("recommended_actions", JArray [JString "call the customer"]);
    ("response_template_type", JString "apology");
    ("executive_summary_spanish", JString "Cliente insatisfecho.") ].

(** A response that asks for an urgent follow-up and recommends nothing. *)
Definition urgent_without_actions : list (string * json) :=
  [ ("overall_sentiment", JString "very_negative");
    ("sentiment_score", JNumber (-0.9)%float);
    ("key_sentiment_indicators", JArray []);
    ("positive_aspects", JArray []);
    ("negative_aspects", JArray [JString "support"]);
    ("improvement_suggestions", JArray []);
    ("emotion_detected", JString "angry");
    ("churn_risk", JString "high");
    ("requires_followup", JBool true);
    ("followup_priority", JString "urgent");
    ("recommended_actions", JArray []);
    ("response_template_type", JString "apology");
    ("executive_summary_spanish", JString "Cliente enfadado.") ].

(** The record [urgent_without_actions] denotes. *)
Definition angry_analysis : CustomerSentimentAnalysis :=
  {| overall_sentiment := "very_negative";
     sentiment_score := (-0.9)%float;
     key_sentiment_indicators := [];
     positive_aspects := [];
     negative_aspects := ["support"];
     improvement_suggestions := [];
     emotion_detected := "angry";
     churn_risk := "high";
     requires_followup := true;
     followup_priority := "urgent";
     recommended_actions := [];
     response_template_type := "apology";
     executive_summary_spanish := "Cliente enfadado." |}.

(** Three spaces and a line feed. *)
Definition spaces : string := ("   " ++ LF)%string.

(** ** Reports of the entry points *)

(** The lines [enumerate(items, i)] is printed as. *)
Fixpoint numbered_lines (i : nat) (items : list string) : list string :=
  match items with
  | [] => []
  | item :: rest =>
      ("  " ++ str_nat i ++ ". " ++ item)%string :: numbered_lines (i + 1) rest
  end.

(** The report of the email script for a task, line by line. *)
Definition email_report (task : EmailTask) : list string :=
  [ ("Sender: " ++ sender task)%string;
    ("Date: " ++ date task)%string;
    ("Priority: " ++ priority task)%string;
    ("Deadline: " ++ str_optional (deadline task))%string;
    (LF ++ "Action Items:")%string ]
  ++ numbered_lines 1 (action_items task)
  ++ [ (LF ++ "Context: " ++ context task)%string ].

(** One line of the key indicators block. *)
Definition indicator_line (i : SentimentIndicator) : string :=
  ("  • " ++ DQ ++ phrase i ++ DQ ++ " → " ++ sentiment_impact i
   ++ " (" ++ category i ++ ")")%string.

(** The report of the sentiment script for an analysis, line by line. *)
Definition sentiment_report (format_2f : float -> string)
           (a : CustomerSentimentAnalysis) : list string :=
  [ ("Overall Sentiment: " ++ overall_sentiment a ++ " (Score: "
     ++ format_2f (sentiment_score a) ++ ")")%string;
    ("Emotion Detected: " ++ emotion_detected a)%string;
    ("Churn Risk: " ++ churn_risk a)%string;
    ("Requires Follow-up: " ++ yes_no (requires_followup a)
     ++ " (Priority: " ++ followup_priority a ++ ")")%string;
    (LF ++ "Positive Aspects:")%string ]
  ++ map (fun aspect => ("  ✓ " ++ aspect)%string) (positive_aspects a)
  ++ [ (LF ++ "Negative Aspects:")%string ]
  ++ map (fun aspect => ("  ✗ " ++ aspect)%string) (negative_aspects a)
  ++ [ (LF ++ "Key Indicators:")%string ]
  ++ map indicator_line (firstn 3 (key_sentiment_indicators a))
  ++ [ (LF ++ "Recommended Actions:")%string ]
  ++ numbered_lines 1 (recommended_actions a)
  ++ [ (LF ++ "Response Type: " ++ response_template_type a)%string;
       (LF ++ "📝 Executive Summary (Spanish):")%string;
       ("  " ++ executive_summary_spanish a)%string ].

(** ** Fields, written-out records and further samples *)

(** A rendering of floats that serves the examples: the sample score. *)
Definition sample_format (x : float) : string := "-0.50".

(** An analysis with five indicators. *)
Definition many_indicators : CustomerSentimentAnalysis :=
  {| overall_sentiment := "negative";
     sentiment_score := (-0.5)%float;
     key_sentiment_indicators :=
       [ {| phrase := "one"; sentiment_impact := "negative";
            category := "service" |};
         {| phrase := "two"; sentiment_impact := "negative";
            category := "price" |};
         {| phrase := "three"; sentiment_impact := "positive";
            category := "product" |};
         {| phrase := "four"; sentiment_impact := "neutral";
            category := "support" |};
         {| phrase := "five"; sentiment_impact := "neutral";
            category := "overall" |} ];
     positive_aspects := ["product quality"];
     negative_aspects := ["customer service"; "price"];
     improvement_suggestions := [];
     emotion_detected := "frustrated";
     churn_risk := "high";
     requires_followup := true;
     followup_priority := "high";
     recommended_actions := ["call the customer"];
     response_template_type := "apology";
     executive_summary_spanish := "Cliente insatisfecho." |}.

(** The fields of the three classes, by name. *)
Definition EmailTask_fields : list string :=
  ["sender"; "date"; "action_items"; "priority"; "deadline"; "context"].

Definition SentimentIndicator_fields : list string :=
  ["phrase"; "sentiment_impact"; "category"].

Definition CustomerSentimentAnalysis_fields : list string :=
  ["overall_sentiment"; "sentiment_score"; "key_sentiment_indicators";
   "positive_aspects"; "negative_aspects"; "improvement_suggestions";
   "emotion_detected"; "churn_risk"; "requires_followup";
   "followup_priority"; "recommended_actions"; "response_template_type";
   "executive_summary_spanish"].

(** A record written out as a document, field by field. *)
Definition dump_EmailTask (task : EmailTask) : list (string * json) :=
  [ ("sender", JString (sender task));
    ("date", JString (date task));
    ("action_items", JArray (map JString (action_items task)));
    ("priority", JString (priority task));
    ("deadline", match deadline task with
                 | Some d => JString d
                 | None => JNull
                 end);
    ("context", JString (context task)) ].

Definition dump_SentimentIndicator (i : SentimentIndicator)
  : list (string * json) :=
  [ ("phrase", JString (phrase i));
    ("sentiment_impact", JString (sentiment_impact i));
    ("category", JString (category i)) ].

Definition dump_CustomerSentimentAnalysis (a : CustomerSentimentAnalysis)
  : list (string * json) :=
  [ ("overall_sentiment", JString (overall_sentiment a));
    ("sentiment_score", JNumber (sentiment_score a));
    ("key_sentiment_indicators",
      JArray (map (fun i => JObject (dump_SentimentIndicator i))
                  (key_sentiment_indicators a)));
    ("positive_aspects", JArray (map JString (positive_aspects a)));
    ("negative_aspects", JArray (map JString (negative_aspects a)));
    ("improvement_suggestions",
      JArray (map JString (improvement_suggestions a)));
    ("emotion_detected", JString (emotion_detected a));
    ("churn_risk", JString (churn_risk a));
    ("requires_followup", JBool (requires_followup a));
    ("followup_priority", JString (followup_priority a));
    ("recommended_actions", JArray (map JString (recommended_actions a)));
    ("response_template_type", JString (response_template_type a));
    ("executive_summary_spanish", JString (executive_summary_spanish a)) ].

(** A task with nothing in it but a priority. *)
Definition bare_task : EmailTask :=
  {| sender := EmptyString;
     date := EmptyString;
     action_items := [];
     priority := "medium";
     deadline := None;
     context := EmptyString |}.

(** An analysis with another score. *)
Definition with_score (score : float) (a : CustomerSentimentAnalysis)
  : CustomerSentimentAnalysis :=
  {| overall_sentiment := overall_sentiment a;
     sentiment_score := score;
     key_sentiment_indicators := key_sentiment_indicators a;
     positive_aspects := positive_aspects a;
     negative_aspects := negative_aspects a;
     improvement_suggestions := improvement_suggestions a;
     emotion_detected := emotion_detected a;
     churn_risk := churn_risk a;
     requires_followup := requires_followup a;
     followup_priority := followup_priority a;
     recommended_actions := recommended_actions a;
     response_template_type := response_template_type a;
     executive_summary_spanish := executive_summary_spanish a |}.

(* ================================================================== *)
(** * Part 5: properties *)
(* ================================================================== *)

(** ** What one invocation does *)

Section Invocation.
Variable S : Type.
Variable config : llm_config S.

Lemma parse_email_to_tasks_run (email_content : string) (w : World S) :
  parse_email_to_tasks config email_content w =
  (first_parsed (fst (email_call config email_content w)),
   {| collaborator := snd (email_call config email_content w);
      trace := trace w ++
               [Submitted EmailTaskModel
                  (email_request (MODEL_NAME config) email_content)] |}).
Proof.
  unfold parse_email_to_tasks, email_call, bind, chat_completions_parse.
  fold (email_request (MODEL_NAME config) email_content).
  destruct (client_parse _ _ _ _) as [[[[| c cs]] | e] s]; reflexivity.
Qed.

Lemma analyze_customer_sentiment_run (feedback : string) (w : World S) :
  analyze_customer_sentiment config feedback w =
  (first_parsed (fst (sentiment_call config feedback w)),
   {| collaborator := snd (sentiment_call config feedback w);
      trace := trace w ++
               [Submitted CustomerSentimentAnalysisModel
                  (sentiment_request (MODEL_NAME config) feedback)] |}).
Proof.
  unfold analyze_customer_sentiment, sentiment_call, bind,
    chat_completions_parse.
  fold (sentiment_request (MODEL_NAME config) feedback).
  destruct (client_parse _ _ _ _) as [[[[| c cs]] | e] s]; reflexivity.
Qed.

End Invocation.

(** The entry point, against a stub that answers with [sample_task]: one
    submission, then the report, line by line. *)
Example main_submits_then_prints :
  main (stub_config (fixed_answer sample_task sample_analysis)) fresh =
  (Ok tt,
   {| collaborator := tt;
      trace :=
        [ Submitted EmailTaskModel (email_request "stub-model" sample_email);
          Printed "Sender: sarah.johnson@company.com";
          Printed "Date: Monday, March 15, 2024";
          Printed "Priority: high";
          Printed "Deadline: tomorrow";
          Printed (LF ++ "Action Items:")%string;
          Printed "  1. Send individual OKRs for Q2";
          Printed "  2. Review the budget proposal";
          Printed (LF ++ "Context: Q2 planning")%string ] |}).
Proof. vm_compute. reflexivity. Qed.

(** When the first choice carries no parsed record, the extractor returns
    [None] and the entry point stops at its first attribute read, having
    printed nothing. *)
Example main_on_a_declined_answer :
  main (stub_config declined) fresh =
  (Err AttributeError,
   {| collaborator := tt;
      trace :=
        [ Submitted EmailTaskModel
            (email_request "stub-model" sample_email) ] |}).
Proof. vm_compute. reflexivity. Qed.

Lemma stub_client_deterministic :
  forall answer, deterministic (stub_client answer).
Proof. intros answer m request s1 s2. reflexivity. Qed.

(** ** Facts about the validators *)

Lemma ap_Ok {A B} (f : V (A -> B)) (x : V A) (b : B) :
  f <*> x = Ok b -> exists g a, f = Ok g /\ x = Ok a /\ b = g a.
Proof.
  destruct f as [g | e1], x as [a | e2]; cbn; intros H; try discriminate.
  inversion H. eauto.
Qed.

Lemma fails_with_ap_l {A B} (i : Issue) (f : V (A -> B)) (x : V A) :
  fails_with i f -> fails_with i (f <*> x).
Proof.
  intros [report [-> Hin]]. destruct x as [a | e]; cbn.
  - exists report. auto.
  - exists (report ++ e). split; [reflexivity | apply in_or_app; auto].
Qed.

Lemma fails_with_ap_r {A B} (i : Issue) (f : V (A -> B)) (x : V A) :
  fails_with i x -> fails_with i (f <*> x).
Proof.
  intros [report [-> Hin]]. destruct f as [g | e]; cbn.
  - exists report. auto.
  - exists (e ++ report). split; [reflexivity | apply in_or_app; auto].
Qed.

Lemma is_err_ap_l {A B} (f : V (A -> B)) (x : V A) :
  is_err f -> is_err (f <*> x).
Proof.
  intros [e ->]. destruct x; cbn; unfold is_err; eauto.
Qed.

Lemma is_err_ap_r {A B} (f : V (A -> B)) (x : V A) :
  is_err x -> is_err (f <*> x).
Proof.
  intros [e ->]. destruct f; cbn; unfold is_err; eauto.
Qed.

Lemma under_Ok {A} (l : LocItem) (r : V A) (a : A) :
  under l r = Ok a -> r = Ok a.
Proof. destruct r; cbn; congruence. Qed.

Lemma under_is_err {A} (l : LocItem) (r : V A) :
  is_err r -> is_err (under l r).
Proof. intros [e ->]. cbn. unfold is_err. eauto. Qed.

(** Lookup in a document with one more member written at the end. *)
Lemma get_app_last (key k : string) (v : json) members :
  get key (members ++ [(k, v)]) =
  if String.eqb key k then Some v else get key members.
Proof.
  induction members as [| [k' v'] rest IH]; cbn.
  - reflexivity.
  - rewrite IH. destruct (String.eqb key k); reflexivity.
Qed.

Lemma existsb_eqb_In (s : string) (choices : list string) :
  existsb (String.eqb s) choices = true <-> In s choices.
Proof.
  rewrite existsb_exists. split.
  - intros [x [Hin Heq]]. apply String.eqb_eq in Heq. subst. exact Hin.
  - intros Hin. exists s. split; [exact Hin | apply String.eqb_refl].
Qed.

(** Splits a successful applicative validation into its fields, last field
    first. *)
Ltac invert_fields H :=
  repeat (let g := fresh "g" in
          let a := fresh "a" in
          let Hf := fresh "Hfield" in
          apply ap_Ok in H; destruct H as [g [a [H [Hf ->]]]]);
  inversion H; subst; clear H.

(** Walks down an applicative validation to the field that fails. *)
Ltac find_err tac :=
  first [ apply is_err_ap_r; solve [tac]
        | apply is_err_ap_l; find_err tac ].

Section ValidatorFacts.
Context {coercion : Coercion}.

Lemma required_Ok {A} (name : string) (v : json -> V A) o (a : A) :
  required name v o = Ok a -> exists j, get name o = Some j /\ v j = Ok a.
Proof.
  unfold required. destruct (get name o) as [j |]; [| discriminate].
  intros H. exists j. split; [reflexivity | exact (under_Ok _ _ H)].
Qed.

Lemma required_missing {A} (name : string) (v : json -> V A) o :
  get name o = None -> fails_with ([Key name], missing) (required name v o).
Proof.
  intros H. unfold required. rewrite H.
  exists [([Key name], missing)]. split; [reflexivity | left; reflexivity].
Qed.

Lemma required_is_err {A} (name : string) (v : json -> V A) o j :
  get name o = Some j -> is_err (v j) -> is_err (required name v o).
Proof.
  intros H E. unfold required. rewrite H. apply under_is_err, E.
Qed.

Lemma required_app_other {A} (name k : string) (v : json -> V A) x o :
  String.eqb name k = false ->
  required name v (o ++ [(k, x)]) = required name v o.
Proof.
  intros H. unfold required. rewrite get_app_last, H. reflexivity.
Qed.

Lemma required_app_same {A} (name : string) (v : json -> V A) x o :
  required name v (o ++ [(name, x)]) = under (Key name) (v x).
Proof.
  unfold required. rewrite get_app_last, String.eqb_refl. reflexivity.
Qed.

Lemma v_literal_Ok (choices : list string) j s :
  v_literal choices j = Ok s -> j = JString s /\ In s choices.
Proof.
  destruct j; cbn; try discriminate.
  destruct (existsb (String.eqb s0) choices) eqn:E; [| discriminate].
  intros H. inversion H; subst. split; [reflexivity |].
  apply existsb_eqb_In, E.
Qed.

Lemma v_literal_other (choices : list string) (v : json) :
  other_value choices v -> is_err (v_literal choices v).
Proof.
  intros H. destruct v; cbn; unfold is_err; eauto.
  destruct (existsb (String.eqb s) choices) eqn:E; eauto.
  apply existsb_eqb_In in E. exfalso. exact (H s eq_refl E).
Qed.

Lemma v_float_Ok (ge le : float) j f :
  v_float ge le j = Ok f ->
  as_float j = Some f /\ PrimFloat.leb ge f = true /\ PrimFloat.leb f le = true.
Proof.
  unfold v_float. destruct (as_float j) as [x |]; [| discriminate].
  destruct (PrimFloat.leb ge x) eqn:G; cbn; [| discriminate].
  destruct (PrimFloat.leb x le) eqn:L; cbn; [| discriminate].
  intros H. inversion H; subst. auto.
Qed.

Lemma v_items_Ok {A} (v : json -> V A) (P : A -> Prop) :
  (forall j a, v j = Ok a -> P a) ->
  forall items i l, v_items v i items = Ok l -> Forall P l.
Proof.
  intros Hv. induction items as [| x rest IH]; cbn [v_items]; intros i l H.
  - inversion H. constructor.
  - apply ap_Ok in H. destruct H as [g [tl [Hg [Hrest ->]]]].
    apply ap_Ok in Hg. destruct Hg as [c [a [Hc [Ha ->]]]].
    inversion Hc; subst. constructor.
    + apply (Hv x). exact (under_Ok _ _ Ha).
    + exact (IH _ _ Hrest).
Qed.

Lemma v_items_is_err {A} (v : json -> V A) :
  forall items k x i,
    nth_error items k = Some x -> is_err (v x) -> is_err (v_items v i items).
Proof.
  induction items as [| y rest IH]; intros [| k] x i Hn E;
    cbn [v_items nth_error] in *; try discriminate.
  - inversion Hn; subst. apply is_err_ap_l, is_err_ap_r, under_is_err, E.
  - apply is_err_ap_r. exact (IH _ _ _ Hn E).
Qed.

(** *** Rejection *)

Lemma required_outside (choices : list string) (name : string) o :
  outside choices name o ->
  is_err (required name (v_literal choices) o).
Proof.
  intros [v [Hget Hother]].
  exact (required_is_err _ _ _ Hget (v_literal_other Hother)).
Qed.

Lemma validate_EmailTask_outside o :
  outside priority_levels "priority" o -> is_err (validate_EmailTask o).
Proof.
  intros H. unfold validate_EmailTask.
  find_err ltac:(apply required_outside; exact H).
Qed.

Lemma validate_SentimentIndicator_outside io :
  outside sentiment_levels "sentiment_impact" io
  \/ outside categories "category" io ->
  is_err (validate_SentimentIndicator io).
Proof.
  intros [H | H]; unfold validate_SentimentIndicator;
    find_err ltac:(apply required_outside; exact H).
Qed.

Lemma validate_CustomerSentimentAnalysis_breach o :
  analysis_breach o -> is_err (validate_CustomerSentimentAnalysis o).
Proof.
  unfold analysis_breach, validate_CustomerSentimentAnalysis.
  intros [H | [H | [H | [H | [H | H]]]]];
    try (find_err ltac:(apply required_outside; exact H)).
  destruct H as [items [k [io [Hget [Hnth Hio]]]]].
  find_err ltac:(
    apply (required_is_err _ _ _ Hget); cbn [v_list];
    apply (v_items_is_err _ _ _ _ Hnth); cbn [v_model];
    apply validate_SentimentIndicator_outside; exact Hio).
Qed.

Lemma validate_score_out_of_range o v f :
  get "sentiment_score" o = Some v ->
  as_float v = Some f ->
  PrimFloat.leb (-1.0) f && PrimFloat.leb f 1.0 = false ->
  is_err (validate_CustomerSentimentAnalysis o).
Proof.
  intros Hget Hf Hrange. unfold validate_CustomerSentimentAnalysis.
  find_err ltac:(
    apply (required_is_err _ _ _ Hget); unfold v_float; rewrite Hf;
    destruct (PrimFloat.leb (-1.0) f); cbn in *;
    [rewrite Hrange; cbn |]; unfold is_err; eauto).
Qed.

(** *** Acceptance *)

Lemma required_literal_Ok (choices : list string) (name : string) o s :
  required name (v_literal choices) o = Ok s -> In s choices.
Proof.
  intros H. apply required_Ok in H. destruct H as [j [_ H]].
  apply v_literal_Ok in H. tauto.
Qed.

Lemma validate_EmailTask_in_sets o (task : EmailTask) :
  validate_EmailTask o = Ok task -> In (priority task) priority_levels.
Proof.
  intros H. unfold validate_EmailTask in H. invert_fields H. cbn -[In].
  eapply required_literal_Ok; eassumption.
Qed.

Lemma validate_SentimentIndicator_in_sets io (i : SentimentIndicator) :
  validate_SentimentIndicator io = Ok i -> indicator_in_sets i.
Proof.
  intros H. unfold validate_SentimentIndicator in H. invert_fields H.
  split; cbn -[In]; eapply required_literal_Ok; eassumption.
Qed.

Lemma validate_CustomerSentimentAnalysis_in_sets o a :
  validate_CustomerSentimentAnalysis o = Ok a -> analysis_in_sets a.
Proof.
  intros H. unfold validate_CustomerSentimentAnalysis in H.
  invert_fields H. unfold analysis_in_sets. cbn -[In].
  repeat split;
    try (eapply required_literal_Ok; eassumption).
  match goal with
  | E : required "key_sentiment_indicators" _ _ = Ok _ |- _ =>
      apply required_Ok in E; destruct E as [j [_ Hitems]]
  end.
  destruct j; try discriminate. cbn [v_list] in Hitems.
  eapply v_items_Ok; [| exact Hitems].
  intros [| | | | |io] i Hi; try discriminate.
  exact (validate_SentimentIndicator_in_sets _ Hi).
Qed.

Lemma validate_CustomerSentimentAnalysis_score o a :
  validate_CustomerSentimentAnalysis o = Ok a ->
  PrimFloat.leb (-1.0) (sentiment_score a) = true
  /\ PrimFloat.leb (sentiment_score a) 1.0 = true.
Proof.
  intros H. unfold validate_CustomerSentimentAnalysis in H.
  invert_fields H. cbn.
  match goal with
  | E : required "sentiment_score" _ _ = Ok _ |- _ =>
      apply required_Ok in E; destruct E as [j [_ Hscore]];
      apply v_float_Ok in Hscore
  end.
  tauto.
Qed.

End ValidatorFacts.

(** ** What the schema-validating collaborator hands over *)

Section SchemaClientFacts.
Context {coercion : Coercion}.
Variable S : Type.
Variable endpoint : Endpoint S.

(** A returned record is the validation of the first choice's content. *)
Lemma first_parsed_schema_Ok (m : Model) (request : ChatRequest) (s : S)
      (r : instance m) :
  first_parsed (fst (client_parse (schema_client endpoint) m request s)) =
    Ok (Some r) ->
  exists j cs,
    fst (endpoint m request s) = Replied ({| raw_content := Some j |} :: cs)
    /\ model_validate m j = Ok r.
Proof.
  cbn. destruct (endpoint m request s) as [[detail | cs] s']; cbn.
  - discriminate.
  - destruct cs as [| [[j |]] rest]; cbn.
    + discriminate.
    + unfold parse_choice; cbn.
      destruct (model_validate m j) as [r' | report] eqn:Hv; cbn;
        [| discriminate].
      destruct (parse_choices m rest); cbn; [| discriminate].
      intros H. inversion H; subst. eauto.
    + unfold parse_choice; cbn.
      destruct (parse_choices m rest); cbn; discriminate.
Qed.

(** A first choice that does not validate fails the whole call. *)
Lemma first_parsed_schema_Err (m : Model) (request : ChatRequest) (s : S)
      (j : json) (cs : list RawChoice) :
  fst (endpoint m request s) = Replied ({| raw_content := Some j |} :: cs) ->
  is_err (model_validate m j) ->
  exists report,
    first_parsed (fst (client_parse (schema_client endpoint) m request s)) =
      Err (SchemaViolation report).
Proof.
  intros Hreply [report Hv]. exists report.
  cbn. destruct (endpoint m request s) as [reply s']; cbn in *.
  subst reply. cbn. unfold parse_choice; cbn. rewrite Hv. reflexivity.
Qed.

End SchemaClientFacts.

Lemma super_urgent_is_other :
  other_value ["high"; "medium"; "low"] (JString "super_urgent").
Proof.
  intros s E. inversion E; subst. cbn.
  intros [H | [H | [H | []]]]; discriminate.
Qed.

Lemma billing_is_other : other_value categories (JString "billing").
Proof.
  intros s E. inversion E; subst. cbn.
  intros [H | [H | [H | [H | [H | [H | []]]]]]]; discriminate.
Qed.

(** ** C1: enumerated fields *)

(** C1.  With the collaborator that validates against the target schema:
    a task returned by the email extractor has its priority among high,
    medium and low; an analysis returned by the sentiment extractor has
    overall sentiment, emotion, churn risk, follow-up priority and response
    template type in their declared sets, and so have the sentiment impact
    and the category of each of its indicators.  When the first choice of
    the reply carries any other value at one of those fields, the extractor
    returns no record: it fails with SchemaViolation. *)
Theorem enumerated_fields_in_closed_sets :
  forall (coercion : Coercion) (S : Type) (endpoint : Endpoint S)
         (model_name input_text : string) (w : World S),
    (forall task,
        fst (parse_email_to_tasks (schema_config endpoint model_name)
                                  input_text w) = Ok (Some task) ->
        In (priority task) ["high"; "medium"; "low"])
    /\
    (forall analysis,
        fst (analyze_customer_sentiment (schema_config endpoint model_name)
                                        input_text w) = Ok (Some analysis) ->
        analysis_in_sets analysis)
    /\
    (forall o cs,
        fst (endpoint EmailTaskModel (email_request model_name input_text)
                      (collaborator w)) =
          Replied ({| raw_content := Some (JObject o) |} :: cs) ->
        outside ["high"; "medium"; "low"] "priority" o ->
        exists report,
          fst (parse_email_to_tasks (schema_config endpoint model_name)
                                    input_text w) =
            Err (SchemaViolation report))
    /\
    (forall o cs,
        fst (endpoint CustomerSentimentAnalysisModel
                      (sentiment_request model_name input_text)
                      (collaborator w)) =
          Replied ({| raw_content := Some (JObject o) |} :: cs) ->
        analysis_breach o ->
        exists report,
          fst (analyze_customer_sentiment (schema_config endpoint model_name)
                                          input_text w) =
            Err (SchemaViolation report)).
Proof.
  intros coercion S endpoint model_name input_text w.
  split; [| split; [| split]].
  - intros task H. rewrite parse_email_to_tasks_run in H. cbn [fst] in H.
    apply (first_parsed_schema_Ok endpoint EmailTaskModel) in H.
    destruct H as [j [cs [_ Hv]]].
    destruct j; try discriminate.
    exact (validate_EmailTask_in_sets _ Hv).
  - intros analysis H. rewrite analyze_customer_sentiment_run in H.
    cbn [fst] in H.
    apply (first_parsed_schema_Ok endpoint CustomerSentimentAnalysisModel) in H.
    destruct H as [j [cs [_ Hv]]].
    destruct j; try discriminate.
    exact (validate_CustomerSentimentAnalysis_in_sets _ Hv).
  - intros o cs Hreply Hout. rewrite parse_email_to_tasks_run. cbn [fst].
    apply (first_parsed_schema_Err endpoint EmailTaskModel _ _ Hreply).
    exact (validate_EmailTask_outside Hout).
  - intros o cs Hreply Hbreach. rewrite analyze_customer_sentiment_run.
    cbn [fst].
    apply (first_parsed_schema_Err endpoint CustomerSentimentAnalysisModel
                                   _ _ Hreply).
    exact (validate_CustomerSentimentAnalysis_breach Hbreach).
Qed.

(** A reply with priority "high" is returned with that priority; a reply
    with priority "super_urgent", or with an indicator of category
    "billing", is refused. *)
Lemma enumerated_fields_in_closed_sets_witness :
  In (priority sample_task) ["high"; "medium"; "low"]
  /\ analysis_in_sets sample_analysis
  /\ (exists report,
         fst (parse_email_to_tasks
                (@schema_config strict unit
                   (replying (JObject (task_document (JString "super_urgent"))))
                   "stub-model")
                "hello" fresh) = Err (SchemaViolation report))
  /\ (exists report,
         fst (analyze_customer_sentiment
                (@schema_config strict unit
                   (replying (JObject (analysis_document (-0.5) "billing")))
                   "stub-model")
                "hello" fresh) = Err (SchemaViolation report)).
Proof.
  split; [| split; [| split]].
  - apply (proj1 (enumerated_fields_in_closed_sets
                    strict
                    (replying (JObject (task_document (JString "high"))))
                    "stub-model" "hello" fresh)).
    reflexivity.
  - apply (proj1 (proj2 (enumerated_fields_in_closed_sets
                    strict
                    (replying (JObject (analysis_document (-0.5) "service")))
                    "stub-model" "hello" fresh))).
    reflexivity.
  - apply (proj1 (proj2 (proj2 (enumerated_fields_in_closed_sets
                    strict
                    (replying
                       (JObject (task_document (JString "super_urgent"))))
                    "stub-model" "hello" fresh)))
             (task_document (JString "super_urgent")) []).
    + reflexivity.
    + exists (JString "super_urgent"). split.
      * reflexivity.
      * exact super_urgent_is_other.
  - apply (proj2 (proj2 (proj2 (enumerated_fields_in_closed_sets
                    strict
                    (replying (JObject (analysis_document (-0.5) "billing")))
                    "stub-model" "hello" fresh)))
             (analysis_document (-0.5) "billing") []).
    + reflexivity.
    + do 5 right.
      exists [ JObject [ ("phrase", JString "absolutely terrible");
                         ("sentiment_impact", JString "very_negative");
                         ("category", JString "billing") ] ], 0,
             [ ("phrase", JString "absolutely terrible");
               ("sentiment_impact", JString "very_negative");
               ("category", JString "billing") ].
      split; [reflexivity | split; [reflexivity |]].
      right. exists (JString "billing"). split.
      * reflexivity.
      * exact billing_is_other.
Defined.

(** ** C2: the sentiment score *)

(** C2.  With the collaborator that validates against the target schema, an
    analysis returned by the sentiment extractor has
    [-1.0 <= sentiment_score <= 1.0]; when the first choice of the reply
    carries a score that reads as a number outside that interval, the
    extractor returns no record: it fails with SchemaViolation. *)
Theorem sentiment_score_within_bounds :
  forall (coercion : Coercion) (S : Type) (endpoint : Endpoint S)
         (model_name input_text : string) (w : World S),
    (forall analysis,
        fst (analyze_customer_sentiment (schema_config endpoint model_name)
                                        input_text w) = Ok (Some analysis) ->
        PrimFloat.leb (-1.0) (sentiment_score analysis) = true
        /\ PrimFloat.leb (sentiment_score analysis) 1.0 = true)
    /\
    (forall o cs v score,
        fst (endpoint CustomerSentimentAnalysisModel
                      (sentiment_request model_name input_text)
                      (collaborator w)) =
          Replied ({| raw_content := Some (JObject o) |} :: cs) ->
        get "sentiment_score" o = Some v ->
        as_float v = Some score ->
        PrimFloat.leb (-1.0) score && PrimFloat.leb score 1.0 = false ->
        exists report,
          fst (analyze_customer_sentiment (schema_config endpoint model_name)
                                          input_text w) =
            Err (SchemaViolation report)).
Proof.
  intros coercion S endpoint model_name input_text w. split.
  - intros analysis H. rewrite analyze_customer_sentiment_run in H.
    cbn [fst] in H.
    apply (first_parsed_schema_Ok endpoint CustomerSentimentAnalysisModel) in H.
    destruct H as [j [cs [_ Hv]]].
    destruct j; try discriminate.
    exact (validate_CustomerSentimentAnalysis_score _ Hv).
  - intros o cs v score Hreply Hget Hread Hrange.
    rewrite analyze_customer_sentiment_run. cbn [fst].
    apply (first_parsed_schema_Err endpoint CustomerSentimentAnalysisModel
                                   _ _ Hreply).
    exact (validate_score_out_of_range _ Hget Hread Hrange).
Qed.

(** A reply scored -0.5 is returned with a score within bounds; replies
    scored 1.5 and -2.0 are refused. *)
Lemma sentiment_score_within_bounds_witness :
  (PrimFloat.leb (-1.0) (sentiment_score sample_analysis) = true
   /\ PrimFloat.leb (sentiment_score sample_analysis) 1.0 = true)
  /\ (exists report,
         fst (analyze_customer_sentiment
                (@schema_config strict unit
                   (replying (JObject (analysis_document 1.5 "service")))
                   "stub-model")
                "hello" fresh) = Err (SchemaViolation report))
  /\ (exists report,
         fst (analyze_customer_sentiment
                (@schema_config strict unit
                   (replying (JObject (analysis_document (-2.0) "service")))
                   "stub-model")
                "hello" fresh) = Err (SchemaViolation report)).
Proof.
  split; [| split].
  - apply (proj1 (sentiment_score_within_bounds
                    strict
                    (replying (JObject (analysis_document (-0.5) "service")))
                    "stub-model" "hello" fresh)).
    reflexivity.
  - apply (proj2 (sentiment_score_within_bounds
                    strict
                    (replying (JObject (analysis_document 1.5 "service")))
                    "stub-model" "hello" fresh)
             (analysis_document 1.5 "service") [] (JNumber 1.5) 1.5%float);
      reflexivity.
  - apply (proj2 (sentiment_score_within_bounds
                    strict
                    (replying (JObject (analysis_document (-2.0) "service")))
                    "stub-model" "hello" fresh)
             (analysis_document (-2.0) "service") [] (JNumber (-2.0))
             (-2.0)%float);
      reflexivity.
Defined.

(** ** C3: empty input *)

(** C3, counterexample.  On the empty text and on a text of spaces and a
    line feed, both extractors call the collaborator and return its record:
    no EmptyInput failure, one submission each. *)
Lemma blank_input_is_submitted :
  is_blank EmptyString = true /\ is_blank spaces = true
  /\ fst (parse_email_to_tasks
            (stub_config (fixed_answer sample_task sample_analysis))
            EmptyString fresh) = Ok (Some sample_task)
  /\ fst (parse_email_to_tasks
            (stub_config (fixed_answer sample_task sample_analysis))
            EmptyString fresh) <> Err EmptyInput
  /\ trace (snd (parse_email_to_tasks
                   (stub_config (fixed_answer sample_task sample_analysis))
                   EmptyString fresh)) =
       [Submitted EmailTaskModel (email_request "stub-model" EmptyString)]
  /\ fst (parse_email_to_tasks
            (stub_config (fixed_answer sample_task sample_analysis))
            spaces fresh) = Ok (Some sample_task)
  /\ trace (snd (parse_email_to_tasks
                   (stub_config (fixed_answer sample_task sample_analysis))
                   spaces fresh)) =
       [Submitted EmailTaskModel (email_request "stub-model" spaces)]
  /\ fst (analyze_customer_sentiment
            (stub_config (fixed_answer sample_task sample_analysis))
            EmptyString fresh) = Ok (Some sample_analysis)
  /\ fst (analyze_customer_sentiment
            (stub_config (fixed_answer sample_task sample_analysis))
            EmptyString fresh) <> Err EmptyInput
  /\ trace (snd (analyze_customer_sentiment
                   (stub_config (fixed_answer sample_task sample_analysis))
                   EmptyString fresh)) =
       [Submitted CustomerSentimentAnalysisModel
          (sentiment_request "stub-model" EmptyString)]
  /\ fst (analyze_customer_sentiment
            (stub_config (fixed_answer sample_task sample_analysis))
            spaces fresh) = Ok (Some sample_analysis)
  /\ trace (snd (analyze_customer_sentiment
                   (stub_config (fixed_answer sample_task sample_analysis))
                   spaces fresh)) =
       [Submitted CustomerSentimentAnalysisModel
          (sentiment_request "stub-model" spaces)].
Proof.
  repeat split; try reflexivity; discriminate.
Qed.

(** C3, as the code has it.  Neither extractor inspects its input: on an
    empty or whitespace-only text it submits the request like on any other
    text, the user message being the bare prefix followed by that text, and
    its outcome is the collaborator's (the first choice's parsed record, or
    the collaborator's failure).  It ends in EmptyInput only if the
    collaborator itself raised that. *)
Theorem blank_input_is_not_guarded :
  forall (S : Type) (config : llm_config S) (input_text : string) (w : World S),
    is_blank input_text = true ->
    (trace (snd (parse_email_to_tasks config input_text w)) =
       trace w ++
       [Submitted EmailTaskModel
          (email_request (MODEL_NAME config) input_text)]
     /\ fst (parse_email_to_tasks config input_text w) =
          first_parsed (fst (email_call config input_text w))
     /\ (fst (parse_email_to_tasks config input_text w) = Err EmptyInput ->
         fst (email_call config input_text w) = Err EmptyInput))
    /\
    (trace (snd (analyze_customer_sentiment config input_text w)) =
       trace w ++
       [Submitted CustomerSentimentAnalysisModel
          (sentiment_request (MODEL_NAME config) input_text)]
     /\ fst (analyze_customer_sentiment config input_text w) =
          first_parsed (fst (sentiment_call config input_text w))
     /\ (fst (analyze_customer_sentiment config input_text w) = Err EmptyInput ->
         fst (sentiment_call config input_text w) = Err EmptyInput)).
Proof.
  intros S config input_text w _. split.
  - rewrite parse_email_to_tasks_run. cbn [fst snd trace].
    repeat split.
    destruct (fst (email_call config input_text w)) as [[[| c cs]] | e];
      cbn; congruence.
  - rewrite analyze_customer_sentiment_run. cbn [fst snd trace].
    repeat split.
    destruct (fst (sentiment_call config input_text w)) as [[[| c cs]] | e];
      cbn; congruence.
Qed.

(** The empty text and the text of spaces, against the table-driven stub. *)
Lemma blank_input_is_not_guarded_witness :
  (trace (snd (parse_email_to_tasks
                 (stub_config (fixed_answer sample_task sample_analysis))
                 EmptyString fresh)) =
     [Submitted EmailTaskModel (email_request "stub-model" EmptyString)]
   /\ fst (parse_email_to_tasks
             (stub_config (fixed_answer sample_task sample_analysis))
             EmptyString fresh) = Ok (Some sample_task))
  /\
  (trace (snd (analyze_customer_sentiment
                 (stub_config (fixed_answer sample_task sample_analysis))
                 spaces fresh)) =
     [Submitted CustomerSentimentAnalysisModel
        (sentiment_request "stub-model" spaces)]
   /\ fst (analyze_customer_sentiment
             (stub_config (fixed_answer sample_task sample_analysis))
             spaces fresh) = Ok (Some sample_analysis)).
Proof.
  destruct (blank_input_is_not_guarded
              (stub_config (fixed_answer sample_task sample_analysis))
              EmptyString fresh eq_refl) as [[Te [Fe _]] _].
  destruct (blank_input_is_not_guarded
              (stub_config (fixed_answer sample_task sample_analysis))
              spaces fresh eq_refl) as [_ [Ts [Fs _]]].
  split; split; assumption.
Defined.

(** ** C4: the shape of the request *)

(** C4.  Whatever the input text, each extractor submits one request made of
    exactly two messages, a system message with the fixed guidance and a
    user message holding the fixed prefix followed by the input text,
    together with its schema class as the target, at temperature 0.3; the
    email extractor bounds the output at 500 tokens and the sentiment
    extractor sets no bound. *)
Theorem request_is_two_part_message :
  forall (S : Type) (config : llm_config S) (input_text : string) (w : World S),
    (exists request,
        trace (snd (parse_email_to_tasks config input_text w)) =
          trace w ++ [Submitted EmailTaskModel request]
        /\ messages request =
             [ {| role := "system"; content := email_system_guidance |};
               {| role := "user";
                  content := (email_user_prefix ++ input_text)%string |} ]
        /\ model request = MODEL_NAME config
        /\ temperature request = 0.3%float
        /\ max_completion_tokens request = Some 500%Z)
    /\
    (exists request,
        trace (snd (analyze_customer_sentiment config input_text w)) =
          trace w ++ [Submitted CustomerSentimentAnalysisModel request]
        /\ messages request =
             [ {| role := "system"; content := sentiment_system_guidance |};
               {| role := "user";
                  content := (sentiment_user_prefix ++ input_text)%string |} ]
        /\ model request = MODEL_NAME config
        /\ temperature request = 0.3%float
        /\ max_completion_tokens request = None).
Proof.
  intros S config input_text w. split.
  - exists (email_request (MODEL_NAME config) input_text).
    rewrite parse_email_to_tasks_run. cbn. repeat split.
  - exists (sentiment_request (MODEL_NAME config) input_text).
    rewrite analyze_customer_sentiment_run. cbn. repeat split.
Qed.

(** ** C5: one submission, nothing else, no retry *)

(** C5.  An invocation of either extractor extends the effect trace by
    exactly one submission and by nothing else (no output is printed), moves
    the collaborator by exactly the one call, and when that call fails the
    failure is what the caller gets: no second submission is made. *)
Theorem exactly_one_submission_no_retry :
  forall (S : Type) (config : llm_config S) (input_text : string) (w : World S),
    (trace (snd (parse_email_to_tasks config input_text w)) =
       trace w ++
       [Submitted EmailTaskModel
          (email_request (MODEL_NAME config) input_text)]
     /\ collaborator (snd (parse_email_to_tasks config input_text w)) =
          snd (email_call config input_text w)
     /\ (forall e,
            fst (email_call config input_text w) = Err e ->
            fst (parse_email_to_tasks config input_text w) = Err e))
    /\
    (trace (snd (analyze_customer_sentiment config input_text w)) =
       trace w ++
       [Submitted CustomerSentimentAnalysisModel
          (sentiment_request (MODEL_NAME config) input_text)]
     /\ collaborator (snd (analyze_customer_sentiment config input_text w)) =
          snd (sentiment_call config input_text w)
     /\ (forall e,
            fst (sentiment_call config input_text w) = Err e ->
            fst (analyze_customer_sentiment config input_text w) = Err e)).
Proof.
  intros S config input_text w. split.
  - rewrite parse_email_to_tasks_run. cbn [fst snd trace collaborator].
    repeat split. intros e He. rewrite He. reflexivity.
  - rewrite analyze_customer_sentiment_run. cbn [fst snd trace collaborator].
    repeat split. intros e He. rewrite He. reflexivity.
Qed.

(** With the collaborator down, each extractor submits once and hands the
    failure on. *)
Lemma exactly_one_submission_no_retry_witness :
  (trace (snd (parse_email_to_tasks (stub_config down) "hello" fresh)) =
     [Submitted EmailTaskModel (email_request "stub-model" "hello")]
   /\ fst (parse_email_to_tasks (stub_config down) "hello" fresh) =
        Err (CollaboratorUnavailable "quota exceeded"))
  /\
  (trace (snd (analyze_customer_sentiment (stub_config down) "hello" fresh)) =
     [Submitted CustomerSentimentAnalysisModel
        (sentiment_request "stub-model" "hello")]
   /\ fst (analyze_customer_sentiment (stub_config down) "hello" fresh) =
        Err (CollaboratorUnavailable "quota exceeded")).
Proof.
  destruct (exactly_one_submission_no_retry (stub_config down) "hello" fresh)
    as [[Te [_ Fe]] [Ts [_ Fs]]].
  split; split.
  - exact Te.
  - apply Fe. reflexivity.
  - exact Ts.
  - apply Fs. reflexivity.
Defined.

(** ** C6: urgent follow-up and recommended actions *)

(** C6, counterexample.  The sentiment extractor returns a record with
    [requires_followup] true, [followup_priority] urgent and no recommended
    action, both when the reply is validated against the schema and when a
    stub client hands the record over directly. *)
Lemma urgent_followup_with_no_action :
  fst (analyze_customer_sentiment
         (@schema_config strict unit
            (replying (JObject urgent_without_actions)) "stub-model")
         "Your support is terrible." fresh) = Ok (Some angry_analysis)
  /\ fst (analyze_customer_sentiment
            (stub_config (fixed_answer sample_task angry_analysis))
            "Your support is terrible." fresh) = Ok (Some angry_analysis)
  /\ requires_followup angry_analysis = true
  /\ followup_priority angry_analysis = "urgent"
  /\ recommended_actions angry_analysis = [].
Proof.
  repeat split.
Qed.

(** C6, as the code has it.  The schema ties [recommended_actions] to no
    other field: a response that validates still validates when its
    [recommended_actions] is overwritten with the empty list, to the same
    record but for that field, whatever [requires_followup] and
    [followup_priority] say. *)
Theorem recommended_actions_may_be_empty :
  forall (coercion : Coercion) (o : list (string * json))
         (a : CustomerSentimentAnalysis),
    validate_CustomerSentimentAnalysis o = Ok a ->
    validate_CustomerSentimentAnalysis
      (o ++ [("recommended_actions", JArray [])]) = Ok (without_actions a).
Proof.
  intros coercion o a H.
  unfold validate_CustomerSentimentAnalysis in *.
  rewrite (required_app_same "recommended_actions").
  rewrite !required_app_other by reflexivity.
  invert_fields H.
  repeat match goal with
         | E : required _ _ _ = Ok _ |- _ => rewrite E; clear E
         end.
  reflexivity.
Qed.

(** The sample response, with its one recommended action overwritten. *)
Lemma recommended_actions_may_be_empty_witness :
  @validate_CustomerSentimentAnalysis strict
    (analysis_document (-0.5) "service" ++ [("recommended_actions", JArray [])])
  = Ok (without_actions sample_analysis).
Proof.
  apply (recommended_actions_may_be_empty
           strict (analysis_document (-0.5) "service")).
  reflexivity.
Defined.

(** ** C7: idempotence against a deterministic stub *)

(** C7.  Against a deterministic collaborator, two invocations of an
    extractor on the same input text return the same outcome, in whatever
    worlds they run; in particular when the second runs in the world the
    first one left behind. *)
Theorem same_input_same_record :
  forall (S : Type) (config : llm_config S),
    deterministic (get_llm_client config) ->
    forall (input_text : string) (w1 w2 : World S),
      (fst (parse_email_to_tasks config input_text w1) =
       fst (parse_email_to_tasks config input_text w2)
       /\ fst (parse_email_to_tasks config input_text w1) =
          fst (parse_email_to_tasks config input_text
                 (snd (parse_email_to_tasks config input_text w1))))
      /\
      (fst (analyze_customer_sentiment config input_text w1) =
       fst (analyze_customer_sentiment config input_text w2)
       /\ fst (analyze_customer_sentiment config input_text w1) =
          fst (analyze_customer_sentiment config input_text
                 (snd (analyze_customer_sentiment config input_text w1)))).
Proof.
  intros S config Hdet input_text w1 w2.
  assert (He : forall a b,
             fst (parse_email_to_tasks config input_text a) =
             fst (parse_email_to_tasks config input_text b)).
  { intros a b. rewrite !parse_email_to_tasks_run. cbn [fst].
    unfold email_call. f_equal. apply Hdet. }
  assert (Hs : forall a b,
             fst (analyze_customer_sentiment config input_text a) =
             fst (analyze_customer_sentiment config input_text b)).
  { intros a b. rewrite !analyze_customer_sentiment_run. cbn [fst].
    unfold sentiment_call. f_equal. apply Hdet. }
  repeat split; auto.
Qed.

(** Two successive invocations against a table-driven stub. *)
Lemma same_input_same_record_witness :
  (fst (parse_email_to_tasks
          (stub_config (fixed_answer sample_task sample_analysis))
          "hello" fresh) =
   fst (parse_email_to_tasks
          (stub_config (fixed_answer sample_task sample_analysis))
          "hello"
          (snd (parse_email_to_tasks
                  (stub_config (fixed_answer sample_task sample_analysis))
                  "hello" fresh))))
  /\
  (fst (analyze_customer_sentiment
          (stub_config (fixed_answer sample_task sample_analysis))
          "hello" fresh) =
   fst (analyze_customer_sentiment
          (stub_config (fixed_answer sample_task sample_analysis))
          "hello"
          (snd (analyze_customer_sentiment
                  (stub_config (fixed_answer sample_task sample_analysis))
                  "hello" fresh)))).
Proof.
  destruct (@same_input_same_record unit
              (stub_config (fixed_answer sample_task sample_analysis))
              (fun m request s1 s2 => eq_refl)
              "hello" fresh fresh) as [[_ He] [_ Hs]].
  split; assumption.
Defined.

(** ** C8: the one field with a default *)

(** C8.  Construction from a document that has no [deadline] key succeeds
    as soon as the five other fields are acceptable, and the record then has
    [deadline = None]; a document that lacks any one of [sender], [date],
    [action_items], [priority] or [context] yields no record at all but a
    report saying that this field is missing. *)
Theorem deadline_is_the_only_default :
  forall (coercion : Coercion) (o : list (string * json)),
    (get "deadline" o = None ->
     forall s d a p c,
       required "sender" v_str o = Ok s ->
       required "date" v_str o = Ok d ->
       required "action_items" (v_list v_str) o = Ok a ->
       required "priority" (v_literal priority_levels) o = Ok p ->
       required "context" v_str o = Ok c ->
       validate_EmailTask o =
         Ok {| sender := s; date := d; action_items := a; priority := p;
               deadline := None; context := c |})
    /\
    (get "deadline" o = None ->
     forall r, validate_EmailTask o = Ok r -> deadline r = None)
    /\
    (forall name,
        In name EmailTask_required ->
        get name o = None ->
        fails_with ([Key name], missing) (validate_EmailTask o)).
Proof.
  intros coercion o. split; [| split].
  - intros Hd s d a p c Hs Hdt Ha Hp Hc.
    unfold validate_EmailTask, defaulted.
    rewrite Hs, Hdt, Ha, Hp, Hc, Hd. reflexivity.
  - intros Hd r H. unfold validate_EmailTask in H.
    apply ap_Ok in H. destruct H as [g5 [c [H [_ ->]]]].
    apply ap_Ok in H. destruct H as [g4 [dl [H [Hdl ->]]]].
    apply ap_Ok in H. destruct H as [g3 [p [H [_ ->]]]].
    apply ap_Ok in H. destruct H as [g2 [a [H [_ ->]]]].
    apply ap_Ok in H. destruct H as [g1 [d [H [_ ->]]]].
    apply ap_Ok in H. destruct H as [g0 [s [H [_ ->]]]].
    inversion H; subst. cbn.
    unfold defaulted in Hdl. rewrite Hd in Hdl. congruence.
  - intros name Hin Hmiss. unfold validate_EmailTask.
    cbn in Hin.
    destruct Hin as [<- | [<- | [<- | [<- | [<- | []]]]]].
    + do 5 apply fails_with_ap_l. apply fails_with_ap_r.
      apply required_missing, Hmiss.
    + do 4 apply fails_with_ap_l. apply fails_with_ap_r.
      apply required_missing, Hmiss.
    + do 3 apply fails_with_ap_l. apply fails_with_ap_r.
      apply required_missing, Hmiss.
    + do 2 apply fails_with_ap_l. apply fails_with_ap_r.
      apply required_missing, Hmiss.
    + apply fails_with_ap_r. apply required_missing, Hmiss.
Qed.

Lemma deadline_is_the_only_default_witness :
  @validate_EmailTask strict no_deadline_document =
    Ok {| sender := "sarah.johnson@company.com";
          date := "Monday, March 15, 2024";
          action_items := ["Update the project dashboard"];
          priority := "low";
          deadline := None;
          context := "Q2 planning" |}
  /\ fails_with ([Key "priority"], missing)
                (@validate_EmailTask strict
                   [ ("sender", JString "sarah.johnson@company.com");
                     ("date", JString "Monday, March 15, 2024");
                     ("action_items", JArray []);
                     ("context", JString "Q2 planning") ]).
Proof.
  split.
  - apply (proj1 (deadline_is_the_only_default strict no_deadline_document));
      reflexivity.
  - apply (proj2 (proj2 (deadline_is_the_only_default strict _))).
    + right. right. right. left. reflexivity.
    + reflexivity.
Defined.

(** ** C9: the first choice's parsed record, as it is *)

(** C9.  When the collaborator answers, what either extractor returns is the
    [parsed] attribute of the first choice of that answer, whatever it
    holds: the extractor looks at no field of it.  In particular a client
    that answers with an arbitrary record, valid for the schema or not,
    gets that very record returned. *)
Theorem returns_first_parsed_unmodified :
  forall (S : Type) (config : llm_config S) (input_text : string) (w : World S),
    (forall choice rest,
        fst (email_call config input_text w) =
          Ok {| choices := choice :: rest |} ->
        fst (parse_email_to_tasks config input_text w) =
          Ok (parsed (message choice)))
    /\
    (forall choice rest,
        fst (sentiment_call config input_text w) =
          Ok {| choices := choice :: rest |} ->
        fst (analyze_customer_sentiment config input_text w) =
          Ok (parsed (message choice)))
    /\
    (forall (task : EmailTask) (analysis : CustomerSentimentAnalysis),
        fst (parse_email_to_tasks
               (stub_config (fixed_answer task analysis)) input_text fresh) =
          Ok (Some task)
        /\ fst (analyze_customer_sentiment
                  (stub_config (fixed_answer task analysis)) input_text fresh) =
             Ok (Some analysis)).
Proof.
  intros S config input_text w. repeat split.
  - intros choice rest H. rewrite parse_email_to_tasks_run.
    cbn [fst]. rewrite H. reflexivity.
  - intros choice rest H. rewrite analyze_customer_sentiment_run.
    cbn [fst]. rewrite H. reflexivity.
Qed.

(** A client that answers with [odd_task] gets it back from the extractor
    untouched. *)
Lemma returns_first_parsed_unmodified_witness :
  fst (parse_email_to_tasks
         (stub_config (fixed_answer odd_task sample_analysis)) "hello" fresh) =
    Ok (Some odd_task)
  /\ fst (analyze_customer_sentiment
            (stub_config (fixed_answer odd_task sample_analysis)) "hello"
            fresh) =
       Ok (Some sample_analysis).
Proof.
  destruct (returns_first_parsed_unmodified
              (stub_config (fixed_answer odd_task sample_analysis))
              "hello" fresh) as [He [Hs _]].
  split.
  - apply (He {| message := {| parsed := Some odd_task |} |} []). reflexivity.
  - apply (Hs {| message := {| parsed := Some sample_analysis |} |} []).
    reflexivity.
Defined.

(** ** C10: where the input text goes *)

(** C10.  For any two input texts, in any two worlds, the requests an
    extractor submits carry the same system message (the fixed guidance),
    the same model, temperature and output bound and the same target class;
    each carries a single user message, whose content is the fixed prefix
    (ending in a line feed) immediately followed by the input text, character
    for character. *)
Theorem input_text_only_in_user_message :
  forall (S : Type) (config : llm_config S) (text text' : string)
         (w w' : World S),
    (exists request request',
        trace (snd (parse_email_to_tasks config text w)) =
          trace w ++ [Submitted EmailTaskModel request]
        /\ trace (snd (parse_email_to_tasks config text' w')) =
             trace w' ++ [Submitted EmailTaskModel request']
        /\ messages request =
             [ {| role := "system"; content := email_system_guidance |};
               {| role := "user";
                  content :=
                    ("Extract tasks from this email:" ++ LF ++ text)%string |} ]
        /\ messages request' =
             [ {| role := "system"; content := email_system_guidance |};
               {| role := "user";
                  content :=
                    ("Extract tasks from this email:" ++ LF ++ text')%string |} ]
        /\ model request = model request'
        /\ temperature request = temperature request'
        /\ max_completion_tokens request = max_completion_tokens request')
    /\
    (exists request request',
        trace (snd (analyze_customer_sentiment config text w)) =
          trace w ++ [Submitted CustomerSentimentAnalysisModel request]
        /\ trace (snd (analyze_customer_sentiment config text' w')) =
             trace w' ++ [Submitted CustomerSentimentAnalysisModel request']
        /\ messages request =
             [ {| role := "system"; content := sentiment_system_guidance |};
               {| role := "user";
                  content :=
                    ("Analyze this customer feedback:" ++ LF ++ text)%string |} ]
        /\ messages request' =
             [ {| role := "system"; content := sentiment_system_guidance |};
               {| role := "user";
                  content :=
                    ("Analyze this customer feedback:" ++ LF ++ text')%string |} ]
        /\ model request = model request'
        /\ temperature request = temperature request'
        /\ max_completion_tokens request = max_completion_tokens request').
Proof.
  intros S config text text' w w'. split.
  - exists (email_request (MODEL_NAME config) text),
           (email_request (MODEL_NAME config) text').
    rewrite !parse_email_to_tasks_run. repeat split.
  - exists (sentiment_request (MODEL_NAME config) text),
           (sentiment_request (MODEL_NAME config) text').
    rewrite !analyze_customer_sentiment_run. repeat split.
Qed.

(* ================================================================== *)
(** * Part 6: further properties of the code *)
(* ================================================================== *)

(** ** Running computations *)

Lemma bind_run {S A B} (m : M S A) (k : A -> M S B) (w : World S) :
  bind m k w =
  match fst (m w) with
  | Ok a => k a (snd (m w))
  | Err e => (Err e, snd (m w))
  end.
Proof. unfold bind. destruct (m w) as [[a | e] w']; reflexivity. Qed.

Lemma world_eta {S} (w : World S) :
  {| collaborator := collaborator w; trace := trace w ++ [] |} = w.
Proof. destruct w; cbn. rewrite app_nil_r. reflexivity. Qed.

Lemma print_numbered_run {S} (items : list string) :
  forall (i : nat) (w : World S),
    print_numbered i items w =
    (Ok tt,
     {| collaborator := collaborator w;
        trace := trace w ++ map Printed (numbered_lines i items) |}).
Proof.
  induction items as [| item rest IH]; intros i w; cbn [print_numbered].
  - cbn. rewrite world_eta. reflexivity.
  - rewrite bind_run. cbn [print fst snd]. rewrite IH. cbn.
    rewrite <- app_assoc. reflexivity.
Qed.

Lemma for_each_print_run {S A} (line : A -> string) (xs : list A) :
  forall w : World S,
    for_each (fun x => print (line x)) xs w =
    (Ok tt,
     {| collaborator := collaborator w;
        trace := trace w ++ map Printed (map line xs) |}).
Proof.
  induction xs as [| x rest IH]; intros w; cbn [for_each].
  - cbn. rewrite world_eta. reflexivity.
  - rewrite bind_run. cbn [print fst snd]. rewrite IH. cbn.
    rewrite <- app_assoc. reflexivity.
Qed.

(** ** The entry point of the email script *)

(** What the entry point does, by the outcome of its one extraction. *)
Lemma main_run {S} (config : llm_config S) (w : World S) :
  main config w =
  match fst (parse_email_to_tasks config sample_email w) with
  | Ok (Some task) =>
      (Ok tt,
       {| collaborator :=
            collaborator (snd (parse_email_to_tasks config sample_email w));
          trace :=
            trace (snd (parse_email_to_tasks config sample_email w))
            ++ map Printed (email_report task) |})
  | Ok None =>
      (Err AttributeError, snd (parse_email_to_tasks config sample_email w))
  | Err e => (Err e, snd (parse_email_to_tasks config sample_email w))
  end.
Proof.
  unfold main. rewrite bind_run.
  destruct (fst (parse_email_to_tasks config sample_email w))
    as [[task |] | e]; try reflexivity.
  set (w1 := snd (parse_email_to_tasks config sample_email w)).
  unfold bind, attribute, ret, print. cbn [collaborator trace].
  rewrite print_numbered_run. cbn [collaborator trace].
  unfold email_report. rewrite !map_app. cbn [map].
  repeat rewrite <- app_assoc. reflexivity.
Qed.

Lemma numbered_lines_length (items : list string) :
  forall i, length (numbered_lines i items) = length items.
Proof.
  induction items as [| item rest IH]; intros i; cbn; [| rewrite IH];
    reflexivity.
Qed.

Lemma numbered_lines_nth (items : list string) :
  forall i k item,
    nth_error items k = Some item ->
    nth_error (numbered_lines i items) k =
      Some ("  " ++ str_nat (i + k) ++ ". " ++ item)%string.
Proof.
  induction items as [| x rest IH]; intros i [| k] item H;
    cbn [nth_error numbered_lines] in *; try discriminate.
  - inversion H; subst. rewrite Nat.add_0_r. reflexivity.
  - rewrite (IH (i + 1) k item H).
    replace (i + 1 + k) with (i + S k) by lia. reflexivity.
Qed.

(** X1.  Whatever the collaborator does, the email script submits exactly
    one request, for the sample email embedded in it, before anything is
    printed; all further effects are printed lines, and the collaborator is
    left as that one call left it. *)
Theorem main_submits_once_then_only_prints :
  forall (S : Type) (config : llm_config S) (w : World S),
  exists lines,
    trace (snd (main config w)) =
      trace w
      ++ Submitted EmailTaskModel
           (email_request (MODEL_NAME config) sample_email)
         :: map Printed lines
    /\ collaborator (snd (main config w)) =
         snd (email_call config sample_email w).
Proof.
  intros S config w. rewrite main_run.
  rewrite parse_email_to_tasks_run. cbn [fst snd].
  destruct (first_parsed (fst (email_call config sample_email w)))
    as [[task |] | e]; cbn [snd trace collaborator].
  - exists (email_report task). rewrite <- app_assoc. split; reflexivity.
  - exists []. split; reflexivity.
  - exists []. split; reflexivity.
Qed.

(** X2.  When the extraction does not return a record, the email script
    prints nothing: a failure of the extraction is the failure of the
    script, and a [None] result ends it with an AttributeError at the first
    attribute read.  In both cases the trace holds the one submission and
    no printed line. *)
Theorem main_prints_nothing_without_a_record :
  forall (S : Type) (config : llm_config S) (w : World S),
    (forall e,
        fst (parse_email_to_tasks config sample_email w) = Err e ->
        fst (main config w) = Err e
        /\ trace (snd (main config w)) =
             trace w ++ [Submitted EmailTaskModel
                           (email_request (MODEL_NAME config) sample_email)])
    /\
    (fst (parse_email_to_tasks config sample_email w) = Ok None ->
     fst (main config w) = Err AttributeError
     /\ trace (snd (main config w)) =
          trace w ++ [Submitted EmailTaskModel
                        (email_request (MODEL_NAME config) sample_email)]).
Proof.
  intros S config w. split.
  - intros e H. rewrite main_run, H. rewrite parse_email_to_tasks_run.
    split; reflexivity.
  - intros H. rewrite main_run, H. rewrite parse_email_to_tasks_run.
    split; reflexivity.
Qed.

Lemma main_prints_nothing_without_a_record_witness :
  (fst (main (stub_config down) fresh) =
     Err (CollaboratorUnavailable "quota exceeded")
   /\ trace (snd (main (stub_config down) fresh)) =
        [Submitted EmailTaskModel (email_request "stub-model" sample_email)])
  /\
  (fst (main (stub_config declined) fresh) = Err AttributeError
   /\ trace (snd (main (stub_config declined) fresh)) =
        [Submitted EmailTaskModel (email_request "stub-model" sample_email)]).
Proof.
  split.
  - apply (proj1 (main_prints_nothing_without_a_record
                    (stub_config down) fresh)).
    reflexivity.
  - apply (proj2 (main_prints_nothing_without_a_record
                    (stub_config declined) fresh)).
    reflexivity.
Defined.

(** X3.  When the extraction returns a task, the email script succeeds and
    prints, after the one submission, six lines plus one per action item:
    sender, date, priority, deadline (the word None when there is none) and
    the heading of the items; then the items in order, numbered from 1; then
    the context. *)
Theorem main_report_of_a_task :
  forall (S : Type) (config : llm_config S) (w : World S) (task : EmailTask),
    fst (parse_email_to_tasks config sample_email w) = Ok (Some task) ->
    fst (main config w) = Ok tt
    /\ exists lines,
        trace (snd (main config w)) =
          trace w
          ++ Submitted EmailTaskModel
               (email_request (MODEL_NAME config) sample_email)
             :: map Printed lines
        /\ length lines = 6 + length (action_items task)
        /\ firstn 5 lines =
             [ ("Sender: " ++ sender task)%string;
               ("Date: " ++ date task)%string;
               ("Priority: " ++ priority task)%string;
               ("Deadline: " ++ match deadline task with
                                | Some d => d
                                | None => "None"
                                end)%string;
               (LF ++ "Action Items:")%string ]
        /\ (forall k item,
               nth_error (action_items task) k = Some item ->
               nth_error lines (5 + k) =
                 Some ("  " ++ str_nat (k + 1) ++ ". " ++ item)%string)
        /\ nth_error lines (5 + length (action_items task)) =
             Some (LF ++ "Context: " ++ context task)%string.
Proof.
  intros S config w task H. rewrite main_run, H.
  rewrite parse_email_to_tasks_run. cbn [fst snd trace collaborator].
  split; [reflexivity |].
  exists (email_report task). rewrite <- app_assoc.
  split; [reflexivity |]. unfold email_report.
  split; [| split; [| split]].
  - rewrite !length_app, numbered_lines_length. cbn. lia.
  - reflexivity.
  - intros k item Hk.
    cbn [Nat.add app nth_error].
    rewrite nth_error_app1
      by (rewrite numbered_lines_length; apply nth_error_Some; congruence).
    rewrite (numbered_lines_nth _ 1 _ Hk).
    replace (1 + k) with (k + 1) by lia. reflexivity.
  - cbn [Nat.add app nth_error].
    rewrite nth_error_app2 by (rewrite numbered_lines_length; lia).
    rewrite numbered_lines_length, Nat.sub_diag. reflexivity.
Qed.

(** The stub's sample task has two action items: eight lines. *)
Lemma main_report_of_a_task_witness :
  fst (main (stub_config (fixed_answer sample_task sample_analysis)) fresh) =
    Ok tt
  /\ exists lines,
      trace (snd (main (stub_config (fixed_answer sample_task sample_analysis))
                       fresh)) =
        [] ++ Submitted EmailTaskModel
                (email_request "stub-model" sample_email)
              :: map Printed lines
      /\ length lines = 6 + 2.
Proof.
  destruct (main_report_of_a_task
              (stub_config (fixed_answer sample_task sample_analysis))
              fresh (task := sample_task) eq_refl)
    as [Hok [lines [Htrace [Hlen _]]]].
  split; [exact Hok |]. exists lines. split; [exact Htrace | exact Hlen].
Defined.

(** ** The entry point of the sentiment script *)

Lemma print_run {S} (line : string) (w : World S) :
  print line w =
  (Ok tt,
   {| collaborator := collaborator w; trace := trace w ++ [Printed line] |}).
Proof. reflexivity. Qed.

(** Runs the next printing step of an unfolded sequence. *)
Ltac run_step :=
  first [ rewrite print_run
        | rewrite for_each_print_run
        | rewrite print_numbered_run ];
  cbv beta iota; cbn [collaborator trace].

(** What the entry point does, by the outcome of its one extraction. *)
Lemma sentiment_main_run {S} (config : llm_config S)
      (format_2f : float -> string) (w : World S) :
  sentiment_main config format_2f w =
  match fst (analyze_customer_sentiment config customer_feedback w) with
  | Ok (Some a) =>
      (Ok tt,
       {| collaborator :=
            collaborator
              (snd (analyze_customer_sentiment config customer_feedback w));
          trace :=
            trace (snd (analyze_customer_sentiment config customer_feedback w))
            ++ map Printed (sentiment_report format_2f a) |})
  | Ok None =>
      (Err AttributeError,
       snd (analyze_customer_sentiment config customer_feedback w))
  | Err e =>
      (Err e, snd (analyze_customer_sentiment config customer_feedback w))
  end.
Proof.
  unfold sentiment_main. rewrite bind_run.
  destruct (fst (analyze_customer_sentiment config customer_feedback w))
    as [[a |] | e]; try reflexivity.
  set (w1 := snd (analyze_customer_sentiment config customer_feedback w)).
  unfold bind, attribute, ret. cbv beta iota.
  repeat run_step.
  unfold sentiment_report, indicator_line. rewrite !map_app. cbn [map].
  repeat rewrite <- app_assoc. reflexivity.
Qed.

(** X4.  Whatever the collaborator does and however floats are rendered,
    the sentiment script submits exactly one request, for the sample
    feedback embedded in it, before anything is printed; all further effects
    are printed lines, and the collaborator is left as that one call left
    it. *)
Theorem sentiment_main_submits_once_then_only_prints :
  forall (S : Type) (config : llm_config S) (format_2f : float -> string)
         (w : World S),
  exists lines,
    trace (snd (sentiment_main config format_2f w)) =
      trace w
      ++ Submitted CustomerSentimentAnalysisModel
           (sentiment_request (MODEL_NAME config) customer_feedback)
         :: map Printed lines
    /\ collaborator (snd (sentiment_main config format_2f w)) =
         snd (sentiment_call config customer_feedback w).
Proof.
  intros S config format_2f w. rewrite sentiment_main_run.
  rewrite analyze_customer_sentiment_run. cbn [fst snd].
  destruct (first_parsed (fst (sentiment_call config customer_feedback w)))
    as [[a |] | e]; cbn [snd trace collaborator].
  - exists (sentiment_report format_2f a). rewrite <- app_assoc.
    split; reflexivity.
  - exists []. split; reflexivity.
  - exists []. split; reflexivity.
Qed.

(** X5.  When the extraction does not return a record, the sentiment script
    prints nothing: a failure of the extraction is the failure of the
    script, and a [None] result ends it with an AttributeError at the first
    attribute read. *)
Theorem sentiment_main_prints_nothing_without_a_record :
  forall (S : Type) (config : llm_config S) (format_2f : float -> string)
         (w : World S),
    (forall e,
        fst (analyze_customer_sentiment config customer_feedback w) = Err e ->
        fst (sentiment_main config format_2f w) = Err e
        /\ trace (snd (sentiment_main config format_2f w)) =
             trace w
             ++ [Submitted CustomerSentimentAnalysisModel
                   (sentiment_request (MODEL_NAME config) customer_feedback)])
    /\
    (fst (analyze_customer_sentiment config customer_feedback w) = Ok None ->
     fst (sentiment_main config format_2f w) = Err AttributeError
     /\ trace (snd (sentiment_main config format_2f w)) =
          trace w
          ++ [Submitted CustomerSentimentAnalysisModel
                (sentiment_request (MODEL_NAME config) customer_feedback)]).
Proof.
  intros S config format_2f w. split.
  - intros e H. rewrite sentiment_main_run, H.
    rewrite analyze_customer_sentiment_run. split; reflexivity.
  - intros H. rewrite sentiment_main_run, H.
    rewrite analyze_customer_sentiment_run. split; reflexivity.
Qed.

Lemma sentiment_main_prints_nothing_without_a_record_witness :
  (fst (sentiment_main (stub_config down) sample_format fresh) =
     Err (CollaboratorUnavailable "quota exceeded")
   /\ trace (snd (sentiment_main (stub_config down) sample_format fresh)) =
        [Submitted CustomerSentimentAnalysisModel
           (sentiment_request "stub-model" customer_feedback)])
  /\
  (fst (sentiment_main (stub_config declined) sample_format fresh) =
     Err AttributeError
   /\ trace (snd (sentiment_main (stub_config declined) sample_format fresh)) =
        [Submitted CustomerSentimentAnalysisModel
           (sentiment_request "stub-model" customer_feedback)]).
Proof.
  split.
  - apply (proj1 (sentiment_main_prints_nothing_without_a_record
                    (stub_config down) sample_format fresh)).
    reflexivity.
  - apply (proj2 (sentiment_main_prints_nothing_without_a_record
                    (stub_config declined) sample_format fresh)).
    reflexivity.
Defined.

(** X6.  When the extraction returns an analysis, the sentiment script
    succeeds and prints, after the one submission: four summary lines; the
    positive aspects under their heading, all of them, in order; the
    negative aspects likewise; under the heading of the key indicators, the
    first three indicators only, whatever their number; the recommended
    actions numbered from 1; the response type and the summary.  That makes
    eleven lines plus one per aspect, per action and per indicator up to
    three. *)
Theorem sentiment_main_report_of_an_analysis :
  forall (S : Type) (config : llm_config S) (format_2f : float -> string)
         (w : World S) (a : CustomerSentimentAnalysis),
    fst (analyze_customer_sentiment config customer_feedback w) = Ok (Some a) ->
    fst (sentiment_main config format_2f w) = Ok tt
    /\ exists lines,
        trace (snd (sentiment_main config format_2f w)) =
          trace w
          ++ Submitted CustomerSentimentAnalysisModel
               (sentiment_request (MODEL_NAME config) customer_feedback)
             :: map Printed lines
        /\ length lines =
             11 + length (positive_aspects a) + length (negative_aspects a)
             + Nat.min 3 (length (key_sentiment_indicators a))
             + length (recommended_actions a)
        /\ lines =
             [ ("Overall Sentiment: " ++ overall_sentiment a ++ " (Score: "
                ++ format_2f (sentiment_score a) ++ ")")%string;
               ("Emotion Detected: " ++ emotion_detected a)%string;
               ("Churn Risk: " ++ churn_risk a)%string;
               ("Requires Follow-up: "
                ++ (if requires_followup a then "Yes" else "No")
                ++ " (Priority: " ++ followup_priority a ++ ")")%string;
               (LF ++ "Positive Aspects:")%string ]
             ++ map (fun aspect => ("  ✓ " ++ aspect)%string)
                    (positive_aspects a)
             ++ [ (LF ++ "Negative Aspects:")%string ]
             ++ map (fun aspect => ("  ✗ " ++ aspect)%string)
                    (negative_aspects a)
             ++ [ (LF ++ "Key Indicators:")%string ]
             ++ map indicator_line (firstn 3 (key_sentiment_indicators a))
             ++ [ (LF ++ "Recommended Actions:")%string ]
             ++ numbered_lines 1 (recommended_actions a)
             ++ [ (LF ++ "Response Type: "
                   ++ response_template_type a)%string;
                  (LF ++ "📝 Executive Summary (Spanish):")%string;
                  ("  " ++ executive_summary_spanish a)%string ]
        /\ (forall k action,
               nth_error (recommended_actions a) k = Some action ->
               nth_error (numbered_lines 1 (recommended_actions a)) k =
                 Some ("  " ++ str_nat (k + 1) ++ ". " ++ action)%string).
Proof.
  intros S config format_2f w a H. rewrite sentiment_main_run, H.
  rewrite analyze_customer_sentiment_run. cbn [fst snd trace collaborator].
  split; [reflexivity |].
  exists (sentiment_report format_2f a). rewrite <- app_assoc.
  split; [reflexivity |]. split; [| split].
  - unfold sentiment_report.
    rewrite !length_app, !length_map, numbered_lines_length, length_firstn.
    cbn [length]. lia.
  - reflexivity.
  - intros k action Hk. rewrite (numbered_lines_nth _ 1 _ Hk).
    replace (1 + k) with (k + 1) by lia. reflexivity.
Qed.

(** Five indicators, three printed: eighteen lines. *)
Lemma sentiment_main_report_of_an_analysis_witness :
  fst (sentiment_main (stub_config (fixed_answer sample_task many_indicators))
                      sample_format fresh) = Ok tt
  /\ exists lines,
      trace (snd (sentiment_main
                    (stub_config (fixed_answer sample_task many_indicators))
                    sample_format fresh)) =
        [] ++ Submitted CustomerSentimentAnalysisModel
                (sentiment_request "stub-model" customer_feedback)
              :: map Printed lines
      /\ length lines = 11 + 1 + 2 + 3 + 1.
Proof.
  destruct (sentiment_main_report_of_an_analysis
              (stub_config (fixed_answer sample_task many_indicators))
              sample_format fresh (a := many_indicators) eq_refl)
    as [Hok [lines [Htrace [Hlen _]]]].
  split; [exact Hok |]. exists lines. split; [exact Htrace | exact Hlen].
Defined.

(** ** Edge behaviour of the extractors *)

(** X7.  When the collaborator answers with a completion that has no
    choice, either extractor fails with IndexError, after its one
    submission. *)
Theorem no_choice_is_an_IndexError :
  forall (S : Type) (config : llm_config S) (input_text : string) (w : World S),
    (fst (email_call config input_text w) = Ok {| choices := [] |} ->
     fst (parse_email_to_tasks config input_text w) = Err IndexError
     /\ trace (snd (parse_email_to_tasks config input_text w)) =
          trace w ++ [Submitted EmailTaskModel
                        (email_request (MODEL_NAME config) input_text)])
    /\
    (fst (sentiment_call config input_text w) = Ok {| choices := [] |} ->
     fst (analyze_customer_sentiment config input_text w) = Err IndexError
     /\ trace (snd (analyze_customer_sentiment config input_text w)) =
          trace w ++ [Submitted CustomerSentimentAnalysisModel
                        (sentiment_request (MODEL_NAME config) input_text)]).
Proof.
  intros S config input_text w. split; intros H.
  - rewrite parse_email_to_tasks_run. cbn [fst snd trace]. rewrite H.
    split; reflexivity.
  - rewrite analyze_customer_sentiment_run. cbn [fst snd trace]. rewrite H.
    split; reflexivity.
Qed.

Lemma no_choice_is_an_IndexError_witness :
  fst (parse_email_to_tasks (stub_config no_choices) "hello" fresh) =
    Err IndexError
  /\ fst (analyze_customer_sentiment (stub_config no_choices) "hello" fresh) =
       Err IndexError.
Proof.
  destruct (no_choice_is_an_IndexError (stub_config no_choices) "hello" fresh)
    as [He Hs].
  split.
  - exact (proj1 (He eq_refl)).
  - exact (proj1 (Hs eq_refl)).
Defined.

(** X8.  What an extractor submits determines its input text: two
    invocations that add the same submission to the trace were given the
    same text.  Nothing of the text is dropped or folded on the way into
    the request. *)
Theorem submission_determines_input_text :
  forall (S : Type) (config : llm_config S) (text text' : string)
         (w : World S),
    (trace (snd (parse_email_to_tasks config text w)) =
     trace (snd (parse_email_to_tasks config text' w)) ->
     text = text')
    /\
    (trace (snd (analyze_customer_sentiment config text w)) =
     trace (snd (analyze_customer_sentiment config text' w)) ->
     text = text').
Proof.
  intros S config text text' w. split; intros H.
  - rewrite !parse_email_to_tasks_run in H. cbn [snd trace] in H.
    apply app_inv_head in H. inversion H. reflexivity.
  - rewrite !analyze_customer_sentiment_run in H. cbn [snd trace] in H.
    apply app_inv_head in H. inversion H. reflexivity.
Qed.

Lemma submission_determines_input_text_witness :
  ("hello" = "hello") /\ ("hello" = "hello").
Proof.
  destruct (submission_determines_input_text
              (stub_config down) "hello" "hello" fresh) as [He Hs].
  split.
  - exact (He eq_refl).
  - exact (Hs eq_refl).
Defined.

(** ** Further facts about the schemas *)

(** Walks down an applicative validation to the field that carries a given
    complaint. *)
Ltac find_fail tac :=
  first [ apply fails_with_ap_r; solve [tac]
        | apply fails_with_ap_l; find_fail tac ].

Lemma fails_with_under {A} (l : LocItem) (loc : list LocItem)
      (kind : ErrorKind) (r : V A) :
  fails_with (loc, kind) r -> fails_with (l :: loc, kind) (under l r).
Proof.
  intros [report [-> Hin]]. cbn.
  exists (map (fun i : Issue => (l :: fst i, snd i)) report).
  split; [reflexivity |].
  apply (in_map (fun i : Issue => (l :: fst i, snd i)) _ _ Hin).
Qed.

(** Lookup in a document with a member written anywhere under another
    key. *)
Lemma get_insert_other (key k : string) (v : json) o1 o2 :
  String.eqb key k = false ->
  get key (o1 ++ (k, v) :: o2) = get key (o1 ++ o2).
Proof.
  intros H. induction o1 as [| [k' v'] rest IH]; cbn.
  - rewrite H. destruct (get key o2); reflexivity.
  - rewrite IH. reflexivity.
Qed.

Section SchemaFacts.
Context {coercion : Coercion}.

Lemma required_fails_with {A} (name : string) (v : json -> V A) o j loc kind :
  get name o = Some j ->
  fails_with (loc, kind) (v j) ->
  fails_with (Key name :: loc, kind) (required name v o).
Proof.
  intros H F. unfold required. rewrite H. apply fails_with_under, F.
Qed.

Lemma v_items_fails_with {A} (v : json -> V A) loc kind :
  forall items k x i,
    nth_error items k = Some x ->
    fails_with (loc, kind) (v x) ->
    fails_with (Index (i + k) :: loc, kind) (v_items v i items).
Proof.
  induction items as [| y rest IH]; intros [| k] x i Hn F;
    cbn [v_items nth_error] in *; try discriminate.
  - inversion Hn; subst. rewrite Nat.add_0_r.
    apply fails_with_ap_l, fails_with_ap_r, fails_with_under, F.
  - apply fails_with_ap_r.
    replace (i + Datatypes.S k) with (Datatypes.S i + k) by lia.
    exact (IH _ _ _ Hn F).
Qed.

Lemma v_list_fails_with {A} (v : json -> V A) loc kind items k x :
  nth_error items k = Some x ->
  fails_with (loc, kind) (v x) ->
  fails_with (Index k :: loc, kind) (v_list v (JArray items)).
Proof.
  intros Hn F. exact (v_items_fails_with v items k 0 Hn F).
Qed.

Lemma v_items_Forall2 {A} (v : json -> V A) :
  forall items i l,
    v_items v i items = Ok l -> Forall2 (fun j a => v j = Ok a) items l.
Proof.
  induction items as [| x rest IH]; cbn [v_items]; intros i l H.
  - inversion H. constructor.
  - apply ap_Ok in H. destruct H as [g [tl [Hg [Hrest ->]]]].
    apply ap_Ok in Hg. destruct Hg as [c [a [Hc [Ha ->]]]].
    inversion Hc; subst. constructor.
    + exact (under_Ok _ _ Ha).
    + exact (IH _ _ Hrest).
Qed.

Lemma v_items_of_Forall2 {A} (v : json -> V A) :
  forall items l,
    Forall2 (fun j a => v j = Ok a) items l ->
    forall i, v_items v i items = Ok l.
Proof.
  induction 1 as [| x a items l Hx _ IH]; intros i; cbn [v_items].
  - reflexivity.
  - rewrite Hx, IH. reflexivity.
Qed.

Lemma required_insert_other {A} (name k : string) (v : json -> V A) x o1 o2 :
  String.eqb name k = false ->
  required name v (o1 ++ (k, x) :: o2) = required name v (o1 ++ o2).
Proof.
  intros H. unfold required. rewrite get_insert_other by exact H.
  reflexivity.
Qed.

Lemma defaulted_insert_other {A} (name k : string) (d : A) (v : json -> V A)
      x o1 o2 :
  String.eqb name k = false ->
  defaulted name d v (o1 ++ (k, x) :: o2) = defaulted name d v (o1 ++ o2).
Proof.
  intros H. unfold defaulted. rewrite get_insert_other by exact H.
  reflexivity.
Qed.

Lemma validate_SentimentIndicator_missing io name :
  In name SentimentIndicator_fields ->
  get name io = None ->
  fails_with ([Key name], missing) (validate_SentimentIndicator io).
Proof.
  intros Hin Hmiss. unfold validate_SentimentIndicator. cbn in Hin.
  destruct Hin as [<- | [<- | [<- | []]]];
    find_fail ltac:(apply required_missing; exact Hmiss).
Qed.

End SchemaFacts.

(** X9.  Every field of [CustomerSentimentAnalysis] is required: a response
    that lacks any one of the thirteen yields no record but a report with a
    complaint that this field is missing.  The same holds inside the
    indicators: when the k-th indicator lacks its phrase, sentiment impact
    or category, the report locates the complaint at that indicator and
    that field. *)
Theorem analysis_fields_are_all_required :
  forall (coercion : Coercion) (o : list (string * json)),
    (forall name,
        In name CustomerSentimentAnalysis_fields ->
        get name o = None ->
        fails_with ([Key name], missing)
                   (validate_CustomerSentimentAnalysis o))
    /\
    (forall items k io name,
        get "key_sentiment_indicators" o = Some (JArray items) ->
        nth_error items k = Some (JObject io) ->
        In name SentimentIndicator_fields ->
        get name io = None ->
        fails_with ([Key "key_sentiment_indicators"; Index k; Key name],
                    missing)
                   (validate_CustomerSentimentAnalysis o)).
Proof.
  intros coercion o. split.
  - intros name Hin Hmiss. unfold validate_CustomerSentimentAnalysis.
    cbn in Hin.
    repeat (destruct Hin as [<- | Hin];
            [find_fail ltac:(apply required_missing; exact Hmiss) |]).
    destruct Hin.
  - intros items k io name Hget Hnth Hin Hmiss.
    unfold validate_CustomerSentimentAnalysis.
    find_fail ltac:(
      eapply required_fails_with; [exact Hget |];
      eapply v_list_fails_with; [exact Hnth |]; cbn [v_model];
      apply validate_SentimentIndicator_missing; assumption).
Qed.

(** The sample response without its churn risk, and with an indicator that
    has no category. *)
Lemma analysis_fields_are_all_required_witness :
  fails_with ([Key "churn_risk"], missing)
             (@validate_CustomerSentimentAnalysis strict
                (filter (fun m => negb (String.eqb (fst m) "churn_risk"))
                        (analysis_document (-0.5) "service")))
  /\ fails_with ([Key "key_sentiment_indicators"; Index 1; Key "category"],
                 missing)
                (@validate_CustomerSentimentAnalysis strict
                   (analysis_document (-0.5) "service"
                    ++ [("key_sentiment_indicators",
                          JArray [ JObject []; 
                                   JObject [("phrase", JString "slow")] ])])).
Proof.
  split.
  - apply (proj1 (analysis_fields_are_all_required strict _)).
    + do 7 right. left. reflexivity.
    + reflexivity.
  - apply (proj2 (analysis_fields_are_all_required strict _)
             [ JObject []; JObject [("phrase", JString "slow")] ] 1
             [("phrase", JString "slow")] "category").
    + reflexivity.
    + reflexivity.
    + right. right. left. reflexivity.
    + reflexivity.
Defined.

(** X10.  Members under keys that name no field are ignored, wherever they
    stand in the document: removing one changes neither the record nor the
    report, for the email schema and for the sentiment schema alike. *)
Theorem unknown_members_are_ignored :
  forall (coercion : Coercion) (o1 o2 : list (string * json))
         (k : string) (v : json),
    (~ In k EmailTask_fields ->
     validate_EmailTask (o1 ++ (k, v) :: o2) = validate_EmailTask (o1 ++ o2))
    /\
    (~ In k CustomerSentimentAnalysis_fields ->
     validate_CustomerSentimentAnalysis (o1 ++ (k, v) :: o2) =
     validate_CustomerSentimentAnalysis (o1 ++ o2)).
Proof.
  intros coercion o1 o2 k v.
  assert (E : forall name fields,
             ~ In k fields -> In name fields -> String.eqb name k = false).
  { intros name fields Hk Hn. apply String.eqb_neq. intros ->. exact (Hk Hn). }
  split; intros Hk.
  - unfold validate_EmailTask.
    rewrite !required_insert_other, defaulted_insert_other;
      try (apply (E _ _ Hk); cbn; tauto).
    reflexivity.
  - unfold validate_CustomerSentimentAnalysis.
    rewrite !required_insert_other;
      try (apply (E _ _ Hk); cbn; tauto).
    reflexivity.
Qed.

Lemma unknown_members_are_ignored_witness :
  @validate_EmailTask strict
    ([("sender", JString "sarah.johnson@company.com")]
     ++ ("assignee", JString "the team")
        :: [ ("date", JString "Monday, March 15, 2024");
             ("action_items", JArray [JString "Update the project dashboard"]);
             ("priority", JString "low");
             ("context", JString "Q2 planning") ]) =
  @validate_EmailTask strict no_deadline_document.
Proof.
  apply (proj1 (unknown_members_are_ignored
                  strict
                  [("sender", JString "sarah.johnson@company.com")]
                  [ ("date", JString "Monday, March 15, 2024");
                    ("action_items",
                      JArray [JString "Update the project dashboard"]);
                    ("priority", JString "low");
                    ("context", JString "Q2 planning") ]
                  "assignee" (JString "the team"))).
  cbn. intros [H | [H | [H | [H | [H | [H | []]]]]]]; discriminate.
Defined.

(** X11.  A validated task is the document read field by field, nothing
    normalised or reordered: sender, date and context are the texts at
    their keys, the priority is the very string of the document, the action
    items are the items of the array at [action_items], as many and in the
    same order, and the deadline is [None] when the key is absent or null
    and the text at the key otherwise. *)
Theorem validated_task_reflects_the_document :
  forall (coercion : Coercion) (o : list (string * json)) (task : EmailTask),
    validate_EmailTask o = Ok task ->
    (exists v, get "sender" o = Some v /\ as_str v = Some (sender task))
    /\ (exists v, get "date" o = Some v /\ as_str v = Some (date task))
    /\ (exists items,
           get "action_items" o = Some (JArray items)
           /\ Forall2 (fun j s => as_str j = Some s) items (action_items task)
           /\ length (action_items task) = length items)
    /\ get "priority" o = Some (JString (priority task))
    /\ match get "deadline" o with
       | None | Some JNull => deadline task = None
       | Some v => exists s, as_str v = Some s /\ deadline task = Some s
       end
    /\ (exists v, get "context" o = Some v /\ as_str v = Some (context task)).
Proof.
  intros coercion o task H. unfold validate_EmailTask in H. invert_fields H.
  cbn [sender date action_items priority deadline context].
  assert (Hstr : forall name s,
             required name v_str o = Ok s ->
             exists v, get name o = Some v /\ as_str v = Some s).
  { intros name s E. apply required_Ok in E. destruct E as [v [Hg Hv]].
    exists v. split; [exact Hg |]. unfold v_str in Hv.
    destruct (as_str v); [inversion Hv; reflexivity | discriminate]. }
  repeat split; try (apply Hstr; assumption).
  - match goal with
    | E : required "action_items" _ _ = Ok _ |- _ =>
        apply required_Ok in E; destruct E as [j [Hg Hitems]]
    end.
    destruct j; try discriminate. cbn [v_list] in Hitems.
    apply v_items_Forall2 in Hitems.
    apply (Forall2_impl (fun j s => as_str j = Some s)) in Hitems.
    + exists items. split; [exact Hg |]. split; [exact Hitems |].
      symmetry. exact (Forall2_length Hitems).
    + intros x s Hx. unfold v_str in Hx.
      destruct (as_str x); [inversion Hx; reflexivity | discriminate].
  - match goal with
    | E : required "priority" _ _ = Ok _ |- _ =>
        apply required_Ok in E; destruct E as [j [Hg Hp]]
    end.
    apply v_literal_Ok in Hp. destruct Hp as [-> _]. exact Hg.
  - match goal with
    | E : defaulted "deadline" _ _ _ = Ok _ |- _ =>
        unfold defaulted in E; rename E into Hd
    end.
    destruct (get "deadline" o) as [v |]; [| congruence].
    apply under_Ok in Hd. unfold v_optional, v_str in Hd.
    destruct v; try congruence;
      (destruct (as_str _) as [text |]; [| discriminate];
       exists text; split; [reflexivity | congruence]).
Qed.

Lemma validated_task_reflects_the_document_witness :
  exists items,
    get "action_items" (task_document (JString "high")) = Some (JArray items)
    /\ Forall2 (fun j s => @as_str strict j = Some s) items
               (action_items sample_task)
    /\ length (action_items sample_task) = length items.
Proof.
  exact (proj1 (proj2 (proj2
           (validated_task_reflects_the_document
              strict (task_document (JString "high")) (task := sample_task)
              eq_refl)))).
Defined.

(** X12.  The deadline is optional, not unchecked: a document whose
    deadline is present, not null and not readable as a text yields no
    task, but a report with a complaint at [deadline], whatever the other
    fields hold. *)
Theorem present_deadline_must_be_text :
  forall (coercion : Coercion) (o : list (string * json)) (v : json),
    get "deadline" o = Some v ->
    v <> JNull ->
    as_str v = None ->
    fails_with ([Key "deadline"], string_type) (validate_EmailTask o).
Proof.
  intros coercion o v Hget Hnull Hstr. unfold validate_EmailTask.
  apply fails_with_ap_l, fails_with_ap_r.
  unfold defaulted. rewrite Hget.
  apply fails_with_under. unfold v_optional, v_str. rewrite Hstr.
  exists [([], string_type)].
  split; [destruct v; congruence | left; reflexivity].
Qed.

Lemma present_deadline_must_be_text_witness :
  fails_with ([Key "deadline"], string_type)
             (@validate_EmailTask strict
                (no_deadline_document ++ [("deadline", JNumber 3.0)])).
Proof.
  apply (present_deadline_must_be_text
           strict (no_deadline_document ++ [("deadline", JNumber 3.0)])
           (v := JNumber 3.0)).
  - reflexivity.
  - discriminate.
  - reflexivity.
Defined.

(** ** Records and the documents that denote them *)

Lemma strict_texts (l : list string) :
  forall i, v_items (@v_str strict) i (map JString l) = Ok l.
Proof.
  intros i. apply v_items_of_Forall2.
  induction l as [| s rest IH]; constructor; [reflexivity | exact IH].
Qed.

Lemma literal_accepts (choices : list string) (s : string) :
  In s choices -> v_literal choices (JString s) = Ok s.
Proof.
  intros H. cbn. apply existsb_eqb_In in H. rewrite H. reflexivity.
Qed.

Lemma strict_indicator (i : SentimentIndicator) :
  indicator_in_sets i ->
  @validate_SentimentIndicator strict (dump_SentimentIndicator i) = Ok i.
Proof.
  intros [Hs Hc]. destruct i as [p s c].
  cbn [sentiment_impact category] in Hs, Hc.
  unfold validate_SentimentIndicator, required, dump_SentimentIndicator.
  cbn [get String.eqb Ascii.eqb Bool.eqb phrase sentiment_impact category].
  rewrite (literal_accepts _ _ Hs), (literal_accepts _ _ Hc). reflexivity.
Qed.

Lemma strict_indicators (l : list SentimentIndicator) :
  Forall indicator_in_sets l ->
  forall i,
    v_items (v_model (@validate_SentimentIndicator strict)) i
            (map (fun x => JObject (dump_SentimentIndicator x)) l) = Ok l.
Proof.
  intros H i. apply v_items_of_Forall2.
  induction H as [| x rest Hx _ IH]; constructor; [| exact IH].
  cbn [v_model]. exact (strict_indicator Hx).
Qed.

(** X13.  Under the strict reading, the schemas constrain nothing but the
    enumerated fields and the score: every task whose priority is high,
    medium or low is the validation of the document that writes it out, and
    so is every analysis whose enumerated fields lie in their sets and whose
    score lies in [-1.0, 1.0].  An empty list of action items, an empty
    sender or an absent deadline are all accepted. *)
Theorem written_out_records_validate_to_themselves :
  (forall task : EmailTask,
      In (priority task) priority_levels ->
      @validate_EmailTask strict (dump_EmailTask task) = Ok task)
  /\
  (forall a : CustomerSentimentAnalysis,
      analysis_in_sets a ->
      PrimFloat.leb (-1.0) (sentiment_score a) = true ->
      PrimFloat.leb (sentiment_score a) 1.0 = true ->
      @validate_CustomerSentimentAnalysis strict
        (dump_CustomerSentimentAnalysis a) = Ok a).
Proof.
  split.
  - intros [s d items p dl c] Hp. cbn [priority] in Hp.
    unfold validate_EmailTask, required, defaulted, dump_EmailTask.
    cbn [get String.eqb Ascii.eqb Bool.eqb
         sender date action_items priority deadline context].
    cbn [v_list]. rewrite strict_texts, (literal_accepts _ _ Hp).
    destruct dl; reflexivity.
  - intros [os sc inds pos neg sug em ch rf fp acts rt es]
           [Hos [Hem [Hch [Hfp [Hrt Hinds]]]]] Hge Hle.
    cbn [overall_sentiment emotion_detected churn_risk followup_priority
         response_template_type key_sentiment_indicators sentiment_score]
      in Hos, Hem, Hch, Hfp, Hrt, Hinds, Hge, Hle.
    unfold validate_CustomerSentimentAnalysis, required,
      dump_CustomerSentimentAnalysis.
    cbn [get String.eqb Ascii.eqb Bool.eqb
         overall_sentiment sentiment_score key_sentiment_indicators
         positive_aspects negative_aspects improvement_suggestions
         emotion_detected churn_risk requires_followup followup_priority
         recommended_actions response_template_type
         executive_summary_spanish].
    cbn [v_list]. rewrite !strict_texts, (strict_indicators Hinds).
    rewrite (literal_accepts _ _ Hos), (literal_accepts _ _ Hem),
      (literal_accepts _ _ Hch), (literal_accepts _ _ Hfp),
      (literal_accepts _ _ Hrt).
    unfold v_float. cbn [as_float strict]. rewrite Hge, Hle. reflexivity.
Qed.

Lemma written_out_records_validate_to_themselves_witness :
  @validate_EmailTask strict (dump_EmailTask bare_task) = Ok bare_task
  /\ @validate_CustomerSentimentAnalysis strict
       (dump_CustomerSentimentAnalysis many_indicators) = Ok many_indicators.
Proof.
  split.
  - apply (proj1 written_out_records_validate_to_themselves).
    right. left. reflexivity.
  - apply (proj2 written_out_records_validate_to_themselves).
    + unfold analysis_in_sets, indicator_in_sets.
      repeat (split; [apply existsb_eqb_In; reflexivity |]).
      repeat (apply Forall_cons;
              [split; apply existsb_eqb_In; reflexivity |]).
      apply Forall_nil.
    + reflexivity.
    + reflexivity.
Defined.

(** X14.  The score is checked against its bounds and against nothing else:
    a response that validates still validates, to the same record but for
    the score, when its score is overwritten with any number from -1.0 to
    1.0, both ends included, whatever overall sentiment it states. *)
Theorem score_is_tied_to_no_other_field :
  forall (coercion : Coercion) (o : list (string * json))
         (a : CustomerSentimentAnalysis) (v : json) (score : float),
    validate_CustomerSentimentAnalysis o = Ok a ->
    as_float v = Some score ->
    PrimFloat.leb (-1.0) score = true ->
    PrimFloat.leb score 1.0 = true ->
    validate_CustomerSentimentAnalysis (o ++ [("sentiment_score", v)]) =
      Ok (with_score score a).
Proof.
  intros coercion o a v score H Hread Hge Hle.
  unfold validate_CustomerSentimentAnalysis in *.
  rewrite (required_app_same "sentiment_score").
  rewrite !required_app_other by reflexivity.
  invert_fields H.
  repeat match goal with
         | E : required _ _ _ = Ok _ |- _ => rewrite E; clear E
         end.
  unfold v_float. rewrite Hread, Hge, Hle. reflexivity.
Qed.

(** A response that states a negative sentiment, rescored to the upper and
    to the lower bound. *)
Lemma score_is_tied_to_no_other_field_witness :
  @validate_CustomerSentimentAnalysis strict
    (analysis_document (-0.5) "service" ++ [("sentiment_score", JNumber 1.0)])
  = Ok (with_score 1.0 sample_analysis)
  /\ @validate_CustomerSentimentAnalysis strict
       (analysis_document (-0.5) "service"
        ++ [("sentiment_score", JNumber (-1.0))])
     = Ok (with_score (-1.0) sample_analysis).
Proof.
  split.
  - apply (score_is_tied_to_no_other_field
             strict (analysis_document (-0.5) "service")
             (a := sample_analysis) (JNumber 1.0));
      reflexivity.
  - apply (score_is_tied_to_no_other_field
             strict (analysis_document (-0.5) "service")
             (a := sample_analysis) (JNumber (-1.0)));
      reflexivity.
Defined.

Section AnalysisReflectsDocument.
Context {coercion : Coercion}.

Lemma required_texts_Ok (name : string) o (l : list string) :
  required name (v_list v_str) o = Ok l ->
  exists items,
    get name o = Some (JArray items)
    /\ Forall2 (fun j s => as_str j = Some s) items l.
Proof.
  intros H. apply required_Ok in H. destruct H as [j [Hg Hitems]].
  destruct j; try discriminate. cbn [v_list] in Hitems.
  apply v_items_Forall2 in Hitems.
  exists items. split; [exact Hg |].
  apply (Forall2_impl (fun j s => as_str j = Some s)) in Hitems;
    [exact Hitems |].
  intros x s Hx. unfold v_str in Hx.
  destruct (as_str x); [inversion Hx; reflexivity | discriminate].
Qed.

Lemma required_indicators_Ok o (l : list SentimentIndicator) :
  required "key_sentiment_indicators"
           (v_list (v_model validate_SentimentIndicator)) o = Ok l ->
  exists items,
    get "key_sentiment_indicators" o = Some (JArray items)
    /\ Forall2 (fun j i => exists io,
                    j = JObject io /\ validate_SentimentIndicator io = Ok i)
               items l.
Proof.
  intros H. apply required_Ok in H. destruct H as [j [Hg Hitems]].
  destruct j; try discriminate. cbn [v_list] in Hitems.
  apply v_items_Forall2 in Hitems.
  exists items. split; [exact Hg |].
  refine (Forall2_impl _ _ Hitems).
  intros x i Hx. destruct x; try discriminate. cbn [v_model] in Hx. eauto.
Qed.

End AnalysisReflectsDocument.

(** X15.  A validated analysis is the document read field by field: the
    score is the number at [sentiment_score], neither rounded nor clamped,
    the follow-up flag is the value at [requires_followup], the positive and
    negative aspects, the suggestions and the recommended actions are the
    items of their arrays, as many and in the same order, and the
    indicators are the validated objects of their array, one for one. *)
Theorem validated_analysis_reflects_the_document :
  forall (coercion : Coercion) (o : list (string * json))
         (a : CustomerSentimentAnalysis),
    validate_CustomerSentimentAnalysis o = Ok a ->
    (exists v,
        get "sentiment_score" o = Some v
        /\ as_float v = Some (sentiment_score a))
    /\ (exists v,
           get "requires_followup" o = Some v
           /\ as_bool v = Some (requires_followup a))
    /\ (exists items,
           get "positive_aspects" o = Some (JArray items)
           /\ Forall2 (fun j s => as_str j = Some s) items
                      (positive_aspects a))
    /\ (exists items,
           get "negative_aspects" o = Some (JArray items)
           /\ Forall2 (fun j s => as_str j = Some s) items
                      (negative_aspects a))
    /\ (exists items,
           get "improvement_suggestions" o = Some (JArray items)
           /\ Forall2 (fun j s => as_str j = Some s) items
                      (improvement_suggestions a))
    /\ (exists items,
           get "recommended_actions" o = Some (JArray items)
           /\ Forall2 (fun j s => as_str j = Some s) items
                      (recommended_actions a))
    /\ (exists items,
           get "key_sentiment_indicators" o = Some (JArray items)
           /\ Forall2 (fun j i => exists io,
                           j = JObject io
                           /\ validate_SentimentIndicator io = Ok i)
                      items (key_sentiment_indicators a)).
Proof.
  intros coercion o a H. unfold validate_CustomerSentimentAnalysis in H.
  invert_fields H.
  cbn [sentiment_score requires_followup positive_aspects negative_aspects
       improvement_suggestions recommended_actions key_sentiment_indicators].
  repeat split;
    try (apply required_texts_Ok; assumption);
    try (apply required_indicators_Ok; assumption).
  - match goal with
    | E : required "sentiment_score" _ _ = Ok _ |- _ =>
        apply required_Ok in E; destruct E as [v [Hg Hv]]
    end.
    apply v_float_Ok in Hv. exists v. tauto.
  - match goal with
    | E : required "requires_followup" _ _ = Ok _ |- _ =>
        apply required_Ok in E; destruct E as [v [Hg Hv]]
    end.
    exists v. split; [exact Hg |]. unfold v_bool in Hv.
    destruct (as_bool v); [inversion Hv; reflexivity | discriminate].
Qed.

Lemma validated_analysis_reflects_the_document_witness :
  exists v,
    get "sentiment_score" (analysis_document (-0.5) "service") = Some v
    /\ @as_float strict v = Some (sentiment_score sample_analysis).
Proof.
  exact (proj1 (validated_analysis_reflects_the_document
                  strict (analysis_document (-0.5) "service")
                  (a := sample_analysis) eq_refl)).
Defined.
